(** * MediaGoblin record models ([mediagoblin/db/models.py])

    A shallow embedding of the three document classes [User], [MediaEntry]
    and [MediaComment] and of their accessor methods.  Documents are Python
    dictionaries, so they are finite maps from field names to values; the
    methods read and assign [self] and query the database, so they live in a
    small state-and-exception monad over the pair (self, database). *)

From Stdlib Require Import ZArith NArith Lia.
From Stdlib Require Import Sorting.Sorted Sorting.Permutation.
From stdpp Require Import base option numbers strings pretty list gmap fin_maps sorting.

Set Warnings "-register-all".

Open Scope Z_scope.
Open Scope nat_scope.

(** ** Values stored in documents *)

(** The Python values that the declared structures range over: [None],
    [bool], [unicode], [ObjectId] (a 12-byte identifier, ordered as the
    number its bytes spell), [datetime] (a point on the time line), lists and
    dictionaries. *)
Inductive value : Type :=
| VNone
| VBool (b : bool)
| VUnicode (s : string)
| VObjectId (oid : N)
| VDatetime (t : Z)
| VList (l : list value)
| VDict (d : list (string * value)).

(** Python's [==] on these values. *)
Fixpoint value_eqb (a b : value) {struct a} : bool :=
  match a, b with
  | VNone, VNone => true
  | VBool x, VBool y => Bool.eqb x y
  | VUnicode x, VUnicode y => String.eqb x y
  | VObjectId x, VObjectId y => N.eqb x y
  | VDatetime x, VDatetime y => Z.eqb x y
  | VList xs, VList ys =>
      (fix go (xs ys : list value) : bool :=
         match xs, ys with
         | [], [] => true
         | x :: xs', y :: ys' => value_eqb x y && go xs' ys'
         | _, _ => false
         end) xs ys
  | VDict xs, VDict ys =>
      (fix go (xs ys : list (string * value)) : bool :=
         match xs, ys with
         | [], [] => true
         | (k, x) :: xs', (k', y) :: ys' =>
             String.eqb k k' && value_eqb x y && go xs' ys'
         | _, _ => false
         end) xs ys
  | _, _ => false
  end.

(** A document is a dictionary from field names to values. *)
Abbreviation Document := (gmap string value).

(** ** The order of the document store

    The store compares values of different kinds by a fixed rank of the
    kinds, and values of one kind by their natural order.  A field that is
    missing sorts as [None] does.  Lists and dictionaries are only ranked,
    not compared among themselves: no query of this file sorts on such a
    field. *)
Definition bson_class (v : option value) : N :=
  match v with
  | None | Some VNone => 1
  | Some (VUnicode _) => 3
  | Some (VDict _) => 4
  | Some (VList _) => 5
  | Some (VObjectId _) => 7
  | Some (VBool _) => 8
  | Some (VDatetime _) => 9
  end%N.

Definition same_class_leb (a b : option value) : bool :=
  match a, b with
  | Some (VUnicode s1), Some (VUnicode s2) => String.leb s1 s2
  | Some (VObjectId i), Some (VObjectId j) => (i <=? j)%N
  | Some (VBool b1), Some (VBool b2) => implb b1 b2
  | Some (VDatetime t1), Some (VDatetime t2) => (t1 <=? t2)%Z
  | _, _ => true
  end.

Definition bson_leb (a b : option value) : bool :=
  (bson_class a <? bson_class b)%N
  || ((bson_class a =? bson_class b)%N && same_class_leb a b).

(** [$lt] and [$gt] compare only values of one kind. *)
Definition value_ltb (a b : value) : bool :=
  (bson_class (Some a) =? bson_class (Some b))%N
  && negb (same_class_leb (Some b) (Some a)).

Inductive direction := ASCENDING | DESCENDING.

(** The order a cursor sorted on [key] lists documents in. *)
Definition doc_order (key : string) (dir : direction) (d1 d2 : Document) : Prop :=
  match dir with
  | ASCENDING => Is_true (bson_leb (d1 !! key) (d2 !! key))
  | DESCENDING => Is_true (bson_leb (d2 !! key) (d1 !! key))
  end.

#[global] Instance doc_order_dec key dir : RelDecision (doc_order key dir).
Proof. intros d1 d2. destruct dir; simpl; apply _. Defined.

(** ** Queries, collections and cursors *)

Inductive cond :=
| QEq (v : value)
| QGt (v : value)
| QLt (v : value).

(** A query document: a condition per field, all of which must hold. *)
Definition query := list (string * cond).

(** Equality with [None] also matches a document without the field. *)
Definition cond_holds (c : cond) (field : option value) : bool :=
  match field, c with
  | Some w, QEq v => value_eqb w v
  | Some w, QGt v => value_ltb v w
  | Some w, QLt v => value_ltb w v
  | None, QEq VNone => true
  | None, _ => false
  end.

Definition doc_matches (q : query) (d : Document) : bool :=
  forallb (λ kc, cond_holds kc.2 (d !! kc.1)) q.

Inductive collection := Users | MediaEntries | MediaComments.

(** The database: the documents of each collection in their natural
    order. *)
Record Database := {
  users : list Document;
  media_entries : list Document;
  media_comments : list Document }.

Definition coll_docs (db : Database) (c : collection) : list Document :=
  match c with
  | Users => users db
  | MediaEntries => media_entries db
  | MediaComments => media_comments db
  end.

(** A cursor: the matching documents in the order asked for, and the limit
    set on it, if any. *)
Record Cursor := {
  cur_docs : list Document;
  cur_limit : option nat }.

Definition find (docs : list Document) (q : query) : Cursor :=
  {| cur_docs := filter (λ d, Is_true (doc_matches q d)) docs; cur_limit := None |}.

Definition cursor_sort (key : string) (dir : direction) (c : Cursor) : Cursor :=
  {| cur_docs := merge_sort (doc_order key dir) (cur_docs c);
     cur_limit := cur_limit c |}.

Definition cursor_limit (n : nat) (c : Cursor) : Cursor :=
  {| cur_docs := cur_docs c; cur_limit := Some n |}.

(** The documents a cursor yields when it is iterated or indexed. *)
Definition cursor_list (c : Cursor) : list Document :=
  match cur_limit c with
  | Some n => take n (cur_docs c)
  | None => cur_docs c
  end.

(** [cursor.count()] counts the matching documents and, by default, ignores
    the limit. *)
Definition cursor_count (c : Cursor) : nat := length (cur_docs c).

Definition find_one (docs : list Document) (q : query) : option Document :=
  head (cur_docs (find docs q)).

(** ** Exceptions and the method monad *)

Inductive exn := KeyError | TypeError | IndexError | ValidationError.

Inductive result (A : Type) : Type :=
| Ok (a : A)
| Raise (e : exn).
Arguments Ok {A} a.
Arguments Raise {A} e.

(** What a method can read and assign: the document it is called on and the
    database behind [self.db] and [mg_globals.database]. *)
Record State := {
  self : Document;
  database : Database }.

Definition M (A : Type) : Type := State → result (A * State).

#[global] Instance M_ret : MRet M := λ A a st, Ok (a, st).

#[global] Instance M_bind : MBind M := λ A B f m st,
  match m st with
  | Ok (a, st') => f a st'
  | Raise e => Raise e
  end.

Definition raise {A : Type} (e : exn) : M A := λ _, Raise e.

(** [self[k]] *)
Definition getitem (k : string) : M value := λ st,
  match self st !! k with
  | Some v => Ok (v, st)
  | None => Raise KeyError
  end.

(** [self[k] = v] *)
Definition setitem (k : string) (v : value) : M unit := λ st,
  Ok (tt, {| self := <[k := v]> (self st); database := database st |}).

Definition collection_of (c : collection) : M (list Document) := λ st,
  Ok (coll_docs (database st) c, st).

(** [d[k]] on a document that a query returned, or on [None]. *)
Definition subscript (d : option Document) (k : string) : M value :=
  match d with
  | None => raise TypeError
  | Some d => match d !! k with
              | Some v => mret v
              | None => raise KeyError
              end
  end.

(** [cursor[i]] *)
Definition cursor_getitem (c : Cursor) (i : nat) : M Document :=
  match cursor_list c !! i with
  | Some d => mret d
  | None => raise IndexError
  end.

(** Truth value of what [find_one] returns: [None] and the empty dictionary
    are false. *)
Definition truthy (d : option Document) : bool :=
  match d with
  | None => false
  | Some d => negb (bool_decide (d = ∅))
  end.

(** ** Collaborators outside this file

    [util.slugify], the text form of a value that is not text already
    ([unicode(v)], [%s]), the password hashing scheme behind
    [auth_lib.bcrypt_check_password] and the constant
    [util.DISPLAY_IMAGE_FETCHING_ORDER] are defined elsewhere; the models
    are stated for any choice of them. *)
Class Collaborators := {
  slugify : string → string;
  py_str : value → string;
  bcrypt_hashpw : string → string → string;
  DISPLAY_IMAGE_FETCHING_ORDER : list string }.

(** A URL generator: route name, [user] and [media] keyword arguments. *)
Definition urlgen_t : Type := string → value → string → string.

Section Models.
Context `{!Collaborators}.

(** [unicode(v)], and [v] under [%s]. *)
Definition unicode_of (v : value) : string :=
  match v with
  | VUnicode s => s
  | _ => py_str v
  end.

(** [util.slugify] is a function of text. *)
Definition slugify_value (v : value) : M string :=
  match v with
  | VUnicode s => mret (slugify s)
  | _ => raise TypeError
  end.

(** *** User *)

(** Modelled from the spec: [auth_lib.bcrypt_check_password], which is
    defined in [mediagoblin/auth/lib.py] and is not part of [models.py].  The
    candidate is hashed with the salt and cost that the stored hash carries
    and the outcome is compared with the stored hash. *)
Definition bcrypt_check_password (raw_pass stored_hash : string) : bool :=
  bool_decide (bcrypt_hashpw raw_pass stored_hash = stored_hash).

Definition check_login (password : string) : M bool :=
  pw_hash ← getitem "pw_hash";
  match pw_hash with
  | VUnicode h => mret (bcrypt_check_password password h)
  | _ => raise TypeError
  end.

(** *** MediaEntry *)

Definition get_comments : M Cursor :=
  docs ← collection_of MediaComments;
  id ← getitem "_id";
  mret (cursor_sort "created" DESCENDING (find docs [("media_entry", QEq id)])).

(** The [for] loop of [get_display_media]: it runs over the module constant. *)
Fixpoint get_display_media_loop (media_map : gmap string value)
    (media_sizes : list string) (order : list string) : option value :=
  match order with
  | [] => None
  | media_size :: order' =>
      if bool_decide (media_size ∈ media_sizes)
      then media_map !! media_size
      else get_display_media_loop media_map media_sizes order'
  end.

Definition get_display_media (media_map : gmap string value)
    (fetch_order : list string) : M (option value) :=
  let media_sizes := (map_to_list media_map).*1 in
  mret (get_display_media_loop media_map media_sizes DISPLAY_IMAGE_FETCHING_ORDER).

Definition generate_slug : M unit :=
  title ← getitem "title";
  slug ← slugify_value title;
  setitem "slug" (VUnicode slug);;
  docs ← collection_of MediaEntries;
  slug ← getitem "slug";
  let duplicate := find_one docs [("slug", QEq slug)] in
  if truthy duplicate then
    id ← getitem "_id";
    slug ← getitem "slug";
    setitem "slug" (VUnicode (unicode_of id +:+ "-" +:+ unicode_of slug))
  else mret tt.

Definition uploader : M (option Document) :=
  docs ← collection_of Users;
  id ← getitem "uploader";
  mret (find_one docs [("_id", QEq id)]).

Definition media_home : string := "mediagoblin.user_pages.media_home".

Definition url_to_prev (urlgen : urlgen_t) : M (option string) :=
  docs ← collection_of MediaEntries;
  id ← getitem "_id";
  up ← getitem "uploader";
  let cursor :=
    cursor_limit 1 (cursor_sort "_id" ASCENDING
      (find docs [("_id", QGt id); ("uploader", QEq up);
                  ("state", QEq (VUnicode "processed"))])) in
  if bool_decide (cursor_count cursor ≠ 0) then
    u ← uploader;
    user ← subscript u "username";
    first ← cursor_getitem cursor 0;
    slug ← subscript (Some first) "slug";
    mret (Some (urlgen media_home user (unicode_of slug)))
  else mret None.

Definition url_to_next (urlgen : urlgen_t) : M (option string) :=
  docs ← collection_of MediaEntries;
  id ← getitem "_id";
  up ← getitem "uploader";
  let cursor :=
    cursor_limit 1 (cursor_sort "_id" DESCENDING
      (find docs [("_id", QLt id); ("uploader", QEq up);
                  ("state", QEq (VUnicode "processed"))])) in
  if bool_decide (cursor_count cursor ≠ 0) then
    u ← uploader;
    user ← subscript u "username";
    first ← cursor_getitem cursor 0;
    slug ← subscript (Some first) "slug";
    mret (Some (urlgen media_home user (unicode_of slug)))
  else mret None.

(** *** MediaComment *)

Definition media_entry : M (option Document) :=
  docs ← collection_of MediaEntries;
  id ← getitem "media_entry";
  mret (find_one docs [("_id", QEq id)]).

Definition author : M (option Document) :=
  docs ← collection_of Users;
  id ← getitem "author";
  mret (find_one docs [("_id", QEq id)]).

End Models.

(** ** Declared structures, required fields and defaults *)

Inductive pytype :=
| TUnicode
| TDatetime
| TDict
| TBool
| TObjectId
| TList
| TListOf (t : pytype).

(** What a default is drawn from: a constant, [datetime.datetime.utcnow] or
    [lambda: unicode(uuid.uuid4())]. *)
Inductive provider :=
| Constant (v : value)
| UtcNow
| Uuid4.

Record Schema := {
  structure : gmap string pytype;
  required_fields : list string;
  default_values : gmap string provider }.

Definition User : Schema := {|
  structure := list_to_map [
    ("username", TUnicode);
    ("email", TUnicode);
    ("created", TDatetime);
    ("plugin_data", TDict);
    ("pw_hash", TUnicode);
    ("email_verified", TBool);
    ("status", TUnicode);
    ("verification_key", TUnicode);
    ("is_admin", TBool);
    ("url", TUnicode);
    ("bio", TUnicode);
    ("bio_html", TUnicode)];
  required_fields := ["username"; "created"; "pw_hash"; "email"];
  default_values := list_to_map [
    ("created", UtcNow);
    ("email_verified", Constant (VBool false));
    ("status", Constant (VUnicode "needs_email_verification"));
    ("verification_key", Uuid4);
    ("is_admin", Constant (VBool false))] |}.

Definition MediaEntry : Schema := {|
  structure := list_to_map [
    ("uploader", TObjectId);
    ("title", TUnicode);
    ("slug", TUnicode);
    ("created", TDatetime);
    ("description", TUnicode);
    ("description_html", TUnicode);
    ("media_type", TUnicode);
    ("media_data", TDict);
    ("plugin_data", TDict);
    ("tags", TListOf TUnicode);
    ("state", TUnicode);
    ("queued_media_file", TListOf TUnicode);
    ("media_files", TDict);
    ("attachment_files", TList);
    ("thumbnail_file", TListOf TUnicode)];
  required_fields := ["uploader"; "created"; "media_type"; "slug"];
  default_values := list_to_map [
    ("created", UtcNow);
    ("state", Constant (VUnicode "unprocessed"))] |}.

Definition MediaComment : Schema := {|
  structure := list_to_map [
    ("media_entry", TObjectId);
    ("author", TObjectId);
    ("created", TDatetime);
    ("content", TUnicode);
    ("content_html", TUnicode)];
  required_fields := ["media_entry"; "author"; "created"; "content"];
  default_values := list_to_map [("created", UtcNow)] |}.

Definition REGISTER_MODELS : list Schema := [MediaEntry; User; MediaComment].

(** What creation draws from its surroundings: the current UTC time and a
    fresh random token. *)
Record Moment := {
  utcnow : Z;
  uuid4 : string }.

Definition provide (env : Moment) (p : provider) : value :=
  match p with
  | Constant v => v
  | UtcNow => VDatetime (utcnow env)
  | Uuid4 => VUnicode (uuid4 env)
  end.

Fixpoint has_type (t : pytype) (v : value) : bool :=
  match t, v with
  | TUnicode, VUnicode _ => true
  | TDatetime, VDatetime _ => true
  | TDict, VDict _ => true
  | TBool, VBool _ => true
  | TObjectId, VObjectId _ => true
  | TList, VList _ => true
  | TListOf t', VList l => forallb (has_type t') l
  | _, _ => false
  end.

(** A supplied field is accepted when the structure declares it and its
    value has the declared type. *)
Definition field_ok (sch : Schema) (k : string) (v : value) : bool :=
  match structure sch !! k with
  | Some t => has_type t v
  | None => false
  end.

(** Modelled from the spec: creation of a record by the [Document] base
    class, which comes from the mongokit package and is not part of
    [models.py].  Section 4.1: a field outside the structure or of the wrong
    type, or a required field that is absent, fails creation with a
    validation error; otherwise every field that was not supplied and has a
    default takes what its provider gives at creation time. *)
Definition create (sch : Schema) (env : Moment) (fields : Document) : result Document :=
  if bool_decide (map_Forall (λ k v, Is_true (field_ok sch k v)) fields)
     && forallb (λ k, bool_decide (is_Some (fields !! k))) (required_fields sch)
  then Ok (fields ∪ (provide env <$> default_values sch))
  else Raise ValidationError.

(** What section 4.4 of the spec asks of [get_display_media]: the first label
    of [fetch_order] that is a key of [media_map], with its path. *)
Fixpoint get_display_media_spec (media_map : gmap string value)
    (fetch_order : list string) : option (string * value) :=
  match fetch_order with
  | [] => None
  | media_size :: fetch_order' =>
      match media_map !! media_size with
      | Some path => Some (media_size, path)
      | None => get_display_media_spec media_map fetch_order'
      end
  end.

(** ** Vocabulary of the statements below *)

(** [d] is an entry of uploader [up] in state "processed". *)
Definition processed_of (up : value) (d : Document) : Prop :=
  d !! "uploader" = Some up ∧ d !! "state" = Some (VUnicode "processed").

(** [d] is a stored processed entry of uploader [up] whose id [j] is
    greater than [i] (respectively less than [i]). *)
Definition later_entry (st : State) (up : value) (i : N) (d : Document) (j : N) : Prop :=
  d ∈ media_entries (database st) ∧ processed_of up d
  ∧ d !! "_id" = Some (VObjectId j) ∧ (i < j)%N.

Definition earlier_entry (st : State) (up : value) (i : N) (d : Document) (j : N) : Prop :=
  d ∈ media_entries (database st) ∧ processed_of up d
  ∧ d !! "_id" = Some (VObjectId j) ∧ (j < i)%N.

(** The link to the page of entry [m]: the uploader of [self] is looked up
    for the user name, [m] gives the slug. *)
Definition link_via `{!Collaborators} (urlgen : urlgen_t) (m : Document) : M (option string) :=
  u ← uploader;
  user ← subscript u "username";
  slug ← subscript (Some m) "slug";
  mret (Some (urlgen media_home user (unicode_of slug))).

(** Some stored entry has the slug [s]. *)
Definition slug_taken (st : State) (s : string) : Prop :=
  ∃ d : Document, d ∈ media_entries (database st) ∧ d !! "slug" = Some (VUnicode s).

(** The state after [self['slug'] = s]. *)
Definition with_slug (st : State) (s : string) : State :=
  {| self := <["slug" := VUnicode s]> (self st); database := database st |}.

(** The structure of [sch] turns the field [k] with value [v] down: it does
    not declare [k], or it declares a type that [v] does not have. *)
Definition rejected (sch : Schema) (k : string) (v : value) : Prop :=
  structure sch !! k = None
  ∨ ∃ t : pytype, structure sch !! k = Some t ∧ has_type t v = false.

(** ** Sample data *)

(** A comment on entry [entry] by user [who], made at time [t]. *)
Definition sample_comment (entry who : N) (t : Z) (text : string) : Document :=
  list_to_map [
    ("media_entry", VObjectId entry);
    ("author", VObjectId who);
    ("created", VDatetime t);
    ("content", VUnicode text)].

(** Three comments on entry 5, stored out of order among a comment on
    another entry. *)
Definition sample_comments_db : Database := {|
  users := [];
  media_entries := [];
  media_comments := [
    sample_comment 5 1 20 "second";
    sample_comment 6 1 15 "elsewhere";
    sample_comment 5 2 30 "third";
    sample_comment 5 1 10 "first"] |}.

(** The in-memory entry 5 in front of that store. *)
Definition sample_commented_entry : State := {|
  self := list_to_map [
    ("_id", VObjectId 5);
    ("uploader", VObjectId 1);
    ("title", VUnicode "Hello World!");
    ("created", VDatetime 5);
    ("media_type", VUnicode "image");
    ("state", VUnicode "processed")];
  database := sample_comments_db |}.


Definition sample_user (id : N) (name : string) : Document :=
  list_to_map [
    ("_id", VObjectId id);
    ("username", VUnicode name);
    ("email", VUnicode (name +:+ "@example.org"));
    ("created", VDatetime 0);
    ("pw_hash", VUnicode ("hash:" +:+ name))].

Definition sample_entry (id who : N) (slug state : string) : Document :=
  list_to_map [
    ("_id", VObjectId id);
    ("uploader", VObjectId who);
    ("title", VUnicode slug);
    ("slug", VUnicode slug);
    ("created", VDatetime (Z.of_N id));
    ("media_type", VUnicode "image");
    ("state", VUnicode state)].

(** Entries 1, 2, 3 of user 1 are processed; entry 4 belongs to user 2 and
    entry 7 of user 1 is not processed yet. *)
Definition sample_gallery_db : Database := {|
  users := [sample_user 1 "alice"; sample_user 2 "bob"];
  media_entries := [
    sample_entry 3 1 "three" "processed";
    sample_entry 7 1 "seven" "unprocessed";
    sample_entry 1 1 "one" "processed";
    sample_entry 4 2 "four" "processed";
    sample_entry 2 1 "two" "processed"];
  media_comments := [] |}.

(** A comment by user 9 on entry 5, held in memory in front of that store,
    from which entry 5 and user 9 have been deleted. *)
Definition sample_orphan_comment : State := {|
  self := sample_comment 5 9 20 "second";
  database := sample_gallery_db |}.

(** Entry 2 in memory, in front of that store. *)
Definition sample_gallery_entry : State := {|
  self := sample_entry 2 1 "two" "processed";
  database := sample_gallery_db |}.

Definition sample_urlgen : urlgen_t := λ route user media,
  match user with
  | VUnicode name => "/u/" +:+ name +:+ "/m/" +:+ media
  | _ => "/m/" +:+ media
  end.

(** Stand-ins for the collaborators, to run the models on the samples. *)
Definition sample_slugify_char (c : Ascii.ascii) : Ascii.ascii :=
  let n := Ascii.N_of_ascii c in
  if ((65 <=? n) && (n <=? 90))%N then Ascii.ascii_of_N (n + 32)
  else if ((97 <=? n) && (n <=? 122))%N || ((48 <=? n) && (n <=? 57))%N then c
  else Ascii.ascii_of_N 45.

Fixpoint sample_slugify (s : string) : string :=
  match s with
  | EmptyString => EmptyString
  | String c s' => String (sample_slugify_char c) (sample_slugify s')
  end.

Definition sample_collaborators : Collaborators := {|
  slugify := sample_slugify;
  py_str := λ v, match v with
                 | VObjectId i => pretty i
                 | _ => "?"
                 end;
  bcrypt_hashpw := λ raw_pass stored_hash, "hash:" +:+ raw_pass;
  DISPLAY_IMAGE_FETCHING_ORDER := ["medium"; "original"; "thumb"] |}.

(** Entry 9, titled "Hello World!", was saved with the slug of its title and
    is held in memory again; entry 8 has another slug. *)
Definition sample_saved_entry : Document :=
  list_to_map [
    ("_id", VObjectId 9);
    ("uploader", VObjectId 1);
    ("title", VUnicode "Hello World!");
    ("slug", VUnicode "hello-world-");
    ("created", VDatetime 9);
    ("media_type", VUnicode "image");
    ("state", VUnicode "processed")].

Definition sample_resaved : State := {|
  self := sample_saved_entry;
  database := {|
    users := [sample_user 1 "alice"];
    media_entries := [sample_entry 8 1 "eight" "processed"; sample_saved_entry];
    media_comments := [] |} |}.

(** A new entry 10 with a title of its own, not saved yet. *)
Definition sample_fresh : State := {|
  self := list_to_map [
    ("_id", VObjectId 10);
    ("uploader", VObjectId 1);
    ("title", VUnicode "Sunset");
    ("created", VDatetime 10);
    ("media_type", VUnicode "image");
    ("state", VUnicode "unprocessed")];
  database := database sample_resaved |}.

(** A size map with a medium and a small rendition and no large one. *)
Definition sample_media_map : gmap string value :=
  list_to_map [
    ("medium", VList [VUnicode "media"; VUnicode "9"; VUnicode "medium.jpg"]);
    ("small", VList [VUnicode "media"; VUnicode "9"; VUnicode "small.jpg"])].

(** User 1 of the sample gallery in memory; the password is "secret". *)
Definition sample_login : State := {|
  self := sample_user 1 "secret";
  database := sample_gallery_db |}.


Definition sample_moment : Moment := {|
  utcnow := 1300000042;
  uuid4 := "0f8fad5b-d9cb-469f-a165-70867728950e" |}.

(** The fields a submission supplies for a new entry. *)
Definition sample_submission : Document :=
  list_to_map [
    ("uploader", VObjectId 1);
    ("title", VUnicode "Sunset");
    ("slug", VUnicode "sunset");
    ("created", VDatetime 1300000000);
    ("media_type", VUnicode "image");
    ("tags", VList [VUnicode "sky"; VUnicode "evening"])].

(** ** MediaEntry.url_for_self *)

(** Truth value of what [dict.get] returns: a missing key gives [None];
    [None], [False], the empty text, the empty list and the empty
    dictionary are false, every other value is true. *)
Definition py_truth (v : option value) : bool :=
  match v with
  | None | Some VNone => false
  | Some (VBool b) => b
  | Some (VUnicode s) => negb (String.eqb s "")
  | Some (VObjectId _) | Some (VDatetime _) => true
  | Some (VList l) => negb (bool_decide (l = []))
  | Some (VDict d) => negb (bool_decide (d = []))
  end.

(** A URL generator whose [media] argument is any value: [url_for_self]
    hands it [self['slug']] as it is. *)
Definition urlgen_any : Type := string → value → value → string.

(** The same generator, seen by a caller that passes text for [media]. *)
Definition text_media (urlgen : urlgen_any) : urlgen_t :=
  λ route user media, urlgen route user (VUnicode media).

(** [self.get(k)] *)
Definition dict_get (k : string) : M (option value) := λ st,
  Ok (self st !! k, st).

Section MoreModels.
Context `{!Collaborators}.

Definition url_for_self (urlgen : urlgen_any) : M string :=
  u ← uploader;
  slug ← dict_get "slug";
  if py_truth slug then
    user ← subscript u "username";
    media ← getitem "slug";
    mret (urlgen media_home user media)
  else
    user ← subscript u "username";
    id ← getitem "_id";
    mret (urlgen media_home user (VUnicode (unicode_of id))).

End MoreModels.

(** What a caller holding [st] sees when the link of another document was
    asked for: the link, and its own state as it was. *)
Definition returned_link (st : State) (r : result (string * State)) :
    result (option string * State) :=
  match r with
  | Ok (url, _) => Ok (Some url, st)
  | Raise e => Raise e
  end.

(** The state in which [d] is the document a method is called on. *)
Definition on_document (st : State) (d : Document) : State :=
  {| self := d; database := database st |}.

(** More samples: a generator that takes any value for [media], an entry
    whose uploader 9 is not stored, and a gallery in which the entry after
    entry 2 was stored without a slug. *)
Definition sample_urlgen_any : urlgen_any := λ route user media,
  sample_urlgen route user (match media with VUnicode s => s | _ => "?" end).

Definition sample_abandoned_entry : State := {|
  self := sample_entry 2 9 "two" "processed";
  database := {|
    users := users sample_gallery_db;
    media_entries := [
      sample_entry 3 9 "three" "processed";
      sample_entry 1 9 "one" "processed";
      sample_entry 2 9 "two" "processed"];
    media_comments := [] |} |}.

Definition sample_slugless_gallery : State := {|
  self := sample_entry 2 1 "two" "processed";
  database := {|
    users := users sample_gallery_db;
    media_entries := [
      delete "slug" (sample_entry 3 1 "three" "processed");
      sample_entry 2 1 "two" "processed"];
    media_comments := [] |} |}.

(** An entry titled "Hello World!" that was never saved and has no id, in
    front of the store in which that slug is taken. *)
Definition sample_unsaved : State := {|
  self := list_to_map [
    ("uploader", VObjectId 1);
    ("title", VUnicode "Hello World!");
    ("created", VDatetime 11);
    ("media_type", VUnicode "image")];
  database := database sample_resaved |}.

(** Entry 2 of the sample gallery with comments on it and on entry 3. *)
Definition sample_discussion : State := {|
  self := sample_entry 2 1 "two" "processed";
  database := {|
    users := users sample_gallery_db;
    media_entries := media_entries sample_gallery_db;
    media_comments := [
      sample_comment 2 1 10 "first";
      sample_comment 3 2 15 "elsewhere";
      sample_comment 2 2 30 "third"] |} |}.

(** The comments of the sample store in another storage order. *)
Definition sample_comments_reordered : State := {|
  self := self sample_commented_entry;
  database := {|
    users := [];
    media_entries := [];
    media_comments := [
      sample_comment 5 1 10 "first";
      sample_comment 5 2 30 "third";
      sample_comment 6 1 15 "elsewhere";
      sample_comment 5 1 20 "second"] |} |}.

(** * Properties *)

(** ** Values and their order *)

Lemma value_eqb_eq (a b : value) : value_eqb a b = true ↔ a = b.
Proof.
  revert a b. fix IH 1.
  intros [|x|x|x|x|xs|xs] [|y|y|y|y|ys|ys]; simpl; try (split; [discriminate|congruence]).
  - done.
  - rewrite Bool.eqb_true_iff. split; congruence.
  - rewrite String.eqb_eq. split; congruence.
  - rewrite N.eqb_eq. split; congruence.
  - rewrite Z.eqb_eq. split; congruence.
  - revert ys. induction xs as [|x xs IHxs]; intros [|y ys];
      try (split; [discriminate|congruence]); [done|].
    rewrite andb_true_iff, IH. specialize (IHxs ys).
    split.
    + intros [-> Hgo]. apply IHxs in Hgo. congruence.
    + intros [= -> ->]. split; [done|]. by apply IHxs.
  - revert ys. induction xs as [|[k x] xs IHxs]; intros [|[k' y] ys];
      try (split; [discriminate|congruence]); [done|].
    rewrite !andb_true_iff, IH, String.eqb_eq. specialize (IHxs ys).
    split.
    + intros [[-> ->] Hgo]. apply IHxs in Hgo. congruence.
    + intros [= -> -> ->]. split; [done|]. by apply IHxs.
Qed.

#[global] Instance value_eq_dec : EqDecision value.
Proof.
  intros a b. destruct (value_eqb a b) eqn:E.
  - left. by apply value_eqb_eq.
  - right. intros Hab. apply value_eqb_eq in Hab. congruence.
Defined.

Lemma value_eqb_refl (a : value) : value_eqb a a = true.
Proof. by apply value_eqb_eq. Qed.

Lemma same_class_leb_total (a b : option value) :
  same_class_leb a b = true ∨ same_class_leb b a = true.
Proof.
  destruct a as [[]|], b as [[]|]; simpl; auto.
  - destruct b, b0; auto.
  - apply String.leb_total.
  - destruct (N.leb_spec oid oid0), (N.leb_spec oid0 oid); auto; lia.
  - destruct (Z.leb_spec t t0), (Z.leb_spec t0 t); auto; lia.
Qed.

Lemma same_class_leb_trans (a b c : option value) :
  bson_class a = bson_class b → bson_class b = bson_class c →
  same_class_leb a b = true → same_class_leb b c = true →
  same_class_leb a c = true.
Proof.
  destruct a as [[]|], b as [[]|], c as [[]|]; simpl; try done.
  - destruct b, b0, b1; done.
  - intros _ _ H1 H2. apply Is_true_true.
    change (String.le s s1). etrans; apply Is_true_true; eassumption.
  - rewrite !N.leb_le. lia.
  - rewrite !Z.leb_le. lia.
Qed.

Lemma bson_leb_total (a b : option value) :
  bson_leb a b = true ∨ bson_leb b a = true.
Proof.
  unfold bson_leb.
  destruct (N.lt_trichotomy (bson_class a) (bson_class b)) as [Hlt|[Heq|Hgt]].
  - left. apply orb_true_iff. left. by apply N.ltb_lt.
  - destruct (same_class_leb_total a b) as [H|H]; [left|right];
      apply orb_true_iff; right; apply andb_true_iff; (split; [|done]);
      apply N.eqb_eq; congruence.
  - right. apply orb_true_iff. left. by apply N.ltb_lt.
Qed.

Lemma bson_leb_trans (a b c : option value) :
  bson_leb a b = true → bson_leb b c = true → bson_leb a c = true.
Proof.
  unfold bson_leb.
  rewrite !orb_true_iff, !andb_true_iff, !N.ltb_lt, !N.eqb_eq.
  intros [Hab|[Hab Lab]] [Hbc|[Hbc Lbc]].
  - left. lia.
  - left. lia.
  - left. lia.
  - right. split; [congruence|]. eapply same_class_leb_trans; eauto.
Qed.

#[global] Instance doc_order_total key dir : Total (doc_order key dir).
Proof.
  intros d1 d2. destruct dir; simpl.
  - destruct (bson_leb_total (d1 !! key) (d2 !! key)) as [->| ->]; auto.
  - destruct (bson_leb_total (d2 !! key) (d1 !! key)) as [->| ->]; auto.
Qed.

#[global] Instance doc_order_trans key dir : Transitive (doc_order key dir).
Proof.
  intros d1 d2 d3. destruct dir; simpl; rewrite !Is_true_true; intros H1 H2.
  - eapply bson_leb_trans; eauto.
  - eapply bson_leb_trans; eauto.
Qed.

(** ** Queries *)

Lemma cond_holds_eq (v : value) (field : option value) :
  v ≠ VNone → cond_holds (QEq v) field = true ↔ field = Some v.
Proof.
  intros Hv. destruct field as [w|]; simpl.
  - rewrite value_eqb_eq. split; congruence.
  - destruct v; done.
Qed.

Lemma value_ltb_oid_l (i : N) (w : value) :
  value_ltb (VObjectId i) w = true ↔ ∃ j, w = VObjectId j ∧ (i < j)%N.
Proof.
  unfold value_ltb. destruct w; simpl; try (split; [discriminate|by intros (?&?&?)]).
  rewrite negb_true_iff, N.leb_gt. split; [eauto|].
  by intros (j & [= ->] & ?).
Qed.

Lemma value_ltb_oid_r (i : N) (w : value) :
  value_ltb w (VObjectId i) = true ↔ ∃ j, w = VObjectId j ∧ (j < i)%N.
Proof.
  unfold value_ltb. destruct w; simpl; try (split; [discriminate|by intros (?&?&?)]).
  rewrite negb_true_iff, N.leb_gt. split; [eauto|].
  by intros (j & [= ->] & ?).
Qed.

Lemma elem_of_find (docs : list Document) (q : query) (d : Document) :
  d ∈ cur_docs (find docs q) ↔ d ∈ docs ∧ doc_matches q d = true.
Proof.
  unfold find; simpl. rewrite list_elem_of_filter, Is_true_true. tauto.
Qed.

Lemma find_one_None (docs : list Document) (q : query) :
  find_one docs q = None ↔ ∀ d, d ∈ docs → doc_matches q d = false.
Proof.
  unfold find_one. rewrite head_None. split.
  - intros Hnil d Hd. destruct (doc_matches q d) eqn:E; [|done].
    assert (d ∈ cur_docs (find docs q)) as Hin by by apply elem_of_find.
    rewrite Hnil in Hin. by apply not_elem_of_nil in Hin.
  - intros Hno. destruct (cur_docs (find docs q)) as [|d l] eqn:E; [done|].
    assert (d ∈ cur_docs (find docs q)) as Hin by (rewrite E; left).
    apply elem_of_find in Hin as [Hd Hm]. rewrite Hno in Hm; done.
Qed.

Lemma find_one_Some (docs : list Document) (q : query) (d : Document) :
  find_one docs q = Some d → d ∈ docs ∧ doc_matches q d = true.
Proof.
  unfold find_one. intros Hd. apply elem_of_find.
  destruct (cur_docs (find docs q)) as [|d' l]; simplify_eq/=. left.
Qed.

(** A document that a query on a field returned is not the empty
    dictionary, so it counts as true. *)
Lemma find_one_truthy (docs : list Document) (k : string) (v : value) :
  v ≠ VNone →
  truthy (find_one docs [(k, QEq v)]) = bool_decide (is_Some (find_one docs [(k, QEq v)])).
Proof.
  intros Hv. destruct (find_one docs [(k, QEq v)]) as [d|] eqn:E; simpl.
  - apply find_one_Some in E as [_ Hm]. simpl in Hm.
    rewrite andb_true_r in Hm. apply cond_holds_eq in Hm; [|done].
    assert (d ≠ ∅) as Hne by (intros ->; by rewrite lookup_empty in Hm).
    by rewrite (bool_decide_eq_false_2 _ Hne).
  - done.
Qed.

(** ** Sorted cursors *)

Lemma merge_sort_head (key : string) (dir : direction) (l : list Document) (d : Document) :
  head (merge_sort (doc_order key dir) l) = Some d →
  d ∈ l ∧ ∀ d', d' ∈ l → doc_order key dir d d'.
Proof.
  intros Hd.
  pose proof (StronglySorted_merge_sort (doc_order key dir) l) as Hs.
  pose proof (merge_sort_Permutation (doc_order key dir) l) as Hp.
  destruct (merge_sort (doc_order key dir) l) as [|d0 rest]; simplify_eq/=.
  split.
  - rewrite <- Hp. left.
  - intros d' Hd'. rewrite <- Hp in Hd'.
    apply StronglySorted_inv in Hs as [_ Hall].
    apply elem_of_cons in Hd' as [->|Hd'].
    + destruct (total (doc_order key dir) d d); done.
    + rewrite Forall_forall in Hall. by apply Hall.
Qed.

Lemma merge_sort_head_is_Some (key : string) (dir : direction) (l : list Document) :
  l ≠ [] → is_Some (head (merge_sort (doc_order key dir) l)).
Proof.
  intros Hl. pose proof (merge_sort_Permutation (doc_order key dir) l) as Hp.
  destruct (merge_sort (doc_order key dir) l) as [|d0 rest]; simpl; [|eauto].
  apply Permutation_nil_l in Hp. done.
Qed.

Lemma StronglySorted_lookup {A : Type} (R : relation A) (l : list A) (i j : nat) (a b : A) :
  StronglySorted R l → i < j → l !! i = Some a → l !! j = Some b → R a b.
Proof.
  intros Hs. revert i j. induction Hs as [|x l Hs IH Hall]; intros i j Hij Hi Hj.
  - done.
  - destruct j as [|j]; [lia|]. simpl in Hj. destruct i as [|i]; simpl in Hi.
    + simplify_eq. rewrite Forall_forall in Hall.
      apply Hall. eapply list_elem_of_lookup_2; eauto.
    + apply (IH i j); [lia|done..].
Qed.

Lemma bson_leb_datetime (t1 t2 : Z) :
  bson_leb (Some (VDatetime t1)) (Some (VDatetime t2)) = true ↔ (t1 ≤ t2)%Z.
Proof. unfold bson_leb; simpl. by rewrite Z.leb_le. Qed.

Lemma bson_leb_oid (i j : N) :
  bson_leb (Some (VObjectId i)) (Some (VObjectId j)) = true ↔ (i ≤ j)%N.
Proof. unfold bson_leb; simpl. by rewrite N.leb_le. Qed.

Lemma find_by_field (docs : list Document) (k : string) (v : value) :
  v ≠ VNone →
  cur_docs (find docs [(k, QEq v)]) = filter (λ d : Document, d !! k = Some v) docs.
Proof.
  intros Hv. unfold find; simpl. apply list_filter_iff. intros d; simpl.
  by rewrite andb_true_r, Is_true_true, cond_holds_eq.
Qed.

(** ** MediaEntry.get_comments *)

(** C5.  [get_comments] on an entry returns exactly the comments whose
    [media_entry] is the entry's [_id] (each as often as it is stored), and
    lists them newest first: a comment never comes before one created later.
    The call reads the store and the entry and changes neither. *)
Theorem get_comments_newest_first (st : State) (id : value) :
  self st !! "_id" = Some id → id ≠ VNone →
  ∃ c : Cursor,
    get_comments st = Ok (c, st)
    ∧ cursor_list c ≡ₚ
        filter (λ d : Document, d !! "media_entry" = Some id)
               (media_comments (database st))
    ∧ ∀ (i j : nat) (d1 d2 : Document) (t1 t2 : Z),
        i < j → cursor_list c !! i = Some d1 → cursor_list c !! j = Some d2 →
        d1 !! "created" = Some (VDatetime t1) →
        d2 !! "created" = Some (VDatetime t2) →
        (t2 ≤ t1)%Z.
Proof.
  intros Hid Hv.
  eexists. split; [|split].
  - unfold get_comments, mbind, M_bind, collection_of, getitem. rewrite Hid. reflexivity.
  - unfold cursor_list, cursor_sort; simpl.
    rewrite merge_sort_Permutation. by rewrite <- find_by_field.
  - unfold cursor_list, cursor_sort; simpl. intros i j d1 d2 t1 t2 Hij H1 H2 Hc1 Hc2.
    pose proof (StronglySorted_merge_sort (doc_order "created" DESCENDING)
      (filter (λ d, Is_true (doc_matches [("media_entry", QEq id)] d))
              (media_comments (database st)))) as Hs.
    pose proof (StronglySorted_lookup _ _ i j d1 d2 Hs Hij H1 H2) as Hord.
    simpl in Hord. rewrite Hc1, Hc2 in Hord.
    by apply Is_true_true, bson_leb_datetime in Hord.
Qed.

(** The comments of the sample store made on entry 5 at times 10 < 20 < 30
    come back as 30, 20, 10. *)
Lemma get_comments_newest_first_witness :
  ∃ c : Cursor,
    get_comments sample_commented_entry = Ok (c, sample_commented_entry)
    ∧ cursor_list c =
        [sample_comment 5 2 30 "third"; sample_comment 5 1 20 "second";
         sample_comment 5 1 10 "first"].
Proof.
  destruct (get_comments_newest_first sample_commented_entry (VObjectId 5))
    as (c & Hrun & _ & _); [vm_compute; reflexivity | discriminate |].
  exists c. split; [exact Hrun|].
  vm_compute in Hrun. injection Hrun as <-. vm_compute. reflexivity.
Defined.

(** ** MediaComment.media_entry and MediaComment.author *)

Lemma find_one_by_id (docs : list Document) (i : N) :
  match find_one docs [("_id", QEq (VObjectId i))] with
  | Some d => d ∈ docs ∧ d !! "_id" = Some (VObjectId i)
  | None => ∀ d : Document, d ∈ docs → d !! "_id" ≠ Some (VObjectId i)
  end.
Proof.
  destruct (find_one docs [("_id", QEq (VObjectId i))]) as [d|] eqn:E.
  - apply find_one_Some in E as [Hd Hm]. split; [done|].
    simpl in Hm. rewrite andb_true_r in Hm. by apply cond_holds_eq in Hm.
  - intros d Hd Hid. rewrite find_one_None in E. specialize (E d Hd).
    simpl in E. rewrite andb_true_r in E.
    apply (cond_holds_eq (VObjectId i)) in Hid; [congruence|done].
Qed.

Lemma find_one_by_id_absent (docs : list Document) (i : N) :
  (∀ d : Document, d ∈ docs → d !! "_id" ≠ Some (VObjectId i)) →
  find_one docs [("_id", QEq (VObjectId i))] = None.
Proof.
  intros Hno. pose proof (find_one_by_id docs i) as H.
  destruct (find_one docs [("_id", QEq (VObjectId i))]) as [d|]; [|done].
  destruct H as [Hd Hid]. by destruct (Hno d Hd).
Qed.

(** What a lookup by id comes to: nothing exactly when no stored record has
    the id; a record that is returned is stored and has the id; and when one
    stored record alone has the id, it is the one returned. *)
Lemma find_one_by_id_pins (docs : list Document) (i : N) (r : option Document) :
  r = find_one docs [("_id", QEq (VObjectId i))] →
  (r = None ↔ ∀ d : Document, d ∈ docs → d !! "_id" ≠ Some (VObjectId i))
  ∧ (∀ d : Document, r = Some d → d ∈ docs ∧ d !! "_id" = Some (VObjectId i))
  ∧ (∀ d : Document, d ∈ docs → d !! "_id" = Some (VObjectId i) →
       (∀ d' : Document, d' ∈ docs → d' !! "_id" = Some (VObjectId i) → d' = d) →
       r = Some d).
Proof.
  intros ->. pose proof (find_one_by_id docs i) as H.
  destruct (find_one docs [("_id", QEq (VObjectId i))]) as [d0|].
  - destruct H as [Hd0 Hid0]. split; [|split].
    + split; [done|]. intros Hno. by destruct (Hno d0 Hd0).
    + by intros d [= <-].
    + intros d Hd Hid Huniq. f_equal. by apply Huniq.
  - split; [|split].
    + done.
    + by intros d [=].
    + intros d Hd Hid _. by destruct (H d Hd).
Qed.

(** C9.  [media_entry()] and [author()] of a comment look the referenced
    record up by the stored id; neither raises, and neither changes the
    comment or the store.  The call returns [None] exactly when the store
    holds no record with that id (it was deleted, say).  A record it
    returns is in the referenced collection and carries the stored id, so a
    stored record with that id is found whenever there is one; and when one
    stored record alone has the id, that record is what the call returns. *)
Theorem dangling_reference_is_absent (st : State) (i : N) :
  (self st !! "media_entry" = Some (VObjectId i) →
     ∃ r : option Document,
       media_entry st = Ok (r, st)
       ∧ (r = None ↔
            ∀ d : Document, d ∈ media_entries (database st) →
              d !! "_id" ≠ Some (VObjectId i))
       ∧ (∀ d : Document, r = Some d →
            d ∈ media_entries (database st) ∧ d !! "_id" = Some (VObjectId i))
       ∧ (∀ d : Document,
            d ∈ media_entries (database st) → d !! "_id" = Some (VObjectId i) →
            (∀ d' : Document, d' ∈ media_entries (database st) →
               d' !! "_id" = Some (VObjectId i) → d' = d) →
            r = Some d))
  ∧ (self st !! "author" = Some (VObjectId i) →
     ∃ r : option Document,
       author st = Ok (r, st)
       ∧ (r = None ↔
            ∀ d : Document, d ∈ users (database st) →
              d !! "_id" ≠ Some (VObjectId i))
       ∧ (∀ d : Document, r = Some d →
            d ∈ users (database st) ∧ d !! "_id" = Some (VObjectId i))
       ∧ (∀ d : Document,
            d ∈ users (database st) → d !! "_id" = Some (VObjectId i) →
            (∀ d' : Document, d' ∈ users (database st) →
               d' !! "_id" = Some (VObjectId i) → d' = d) →
            r = Some d)).
Proof.
  split; intros Href.
  - exists (find_one (media_entries (database st)) [("_id", QEq (VObjectId i))]).
    split.
    + unfold media_entry, mbind, M_bind, collection_of, getitem, mret, M_ret.
      by rewrite Href.
    + by apply find_one_by_id_pins.
  - exists (find_one (users (database st)) [("_id", QEq (VObjectId i))]).
    split.
    + unfold author, mbind, M_bind, collection_of, getitem, mret, M_ret.
      by rewrite Href.
    + by apply find_one_by_id_pins.
Qed.

(** The orphan sample comment refers to entry 5 and to author 9, neither of
    which is among the stored entries and users: both lookups return
    [None].  The comment "third" of the sample discussion refers to entry 2
    and to author 2, which are stored: the lookups return that entry and
    that user. *)
Lemma dangling_reference_is_absent_witness :
  media_entry sample_orphan_comment = Ok (None, sample_orphan_comment)
  ∧ author sample_orphan_comment = Ok (None, sample_orphan_comment)
  ∧ media_entry (on_document sample_discussion (sample_comment 2 2 30 "third"))
    = Ok (Some (sample_entry 2 1 "two" "processed"),
          on_document sample_discussion (sample_comment 2 2 30 "third"))
  ∧ author (on_document sample_discussion (sample_comment 2 2 30 "third"))
    = Ok (Some (sample_user 2 "bob"),
          on_document sample_discussion (sample_comment 2 2 30 "third")).
Proof.
  split; [|split; [|split]].
  - destruct (proj1 (dangling_reference_is_absent sample_orphan_comment 5))
      as (r & Hrun & Hnone & _); [vm_compute; reflexivity|].
    rewrite Hrun. do 2 f_equal. apply Hnone. intros d Hd.
    repeat (apply elem_of_cons in Hd as [->|Hd]; [vm_compute; discriminate|]).
    by apply not_elem_of_nil in Hd.
  - destruct (proj2 (dangling_reference_is_absent sample_orphan_comment 9))
      as (r & Hrun & Hnone & _); [vm_compute; reflexivity|].
    rewrite Hrun. do 2 f_equal. apply Hnone. intros d Hd.
    repeat (apply elem_of_cons in Hd as [->|Hd]; [vm_compute; discriminate|]).
    by apply not_elem_of_nil in Hd.
  - destruct (proj1 (dangling_reference_is_absent
                       (on_document sample_discussion (sample_comment 2 2 30 "third")) 2))
      as (r & Hrun & _ & _ & Hone); [vm_compute; reflexivity|].
    rewrite Hrun. do 2 f_equal. apply Hone.
    + do 4 right; left.
    + vm_compute; reflexivity.
    + intros d Hd Hid.
      repeat (apply elem_of_cons in Hd as [->|Hd];
              [first [reflexivity | vm_compute in Hid; discriminate]|]).
      by apply not_elem_of_nil in Hd.
  - destruct (proj2 (dangling_reference_is_absent
                       (on_document sample_discussion (sample_comment 2 2 30 "third")) 2))
      as (r & Hrun & _ & _ & Hone); [vm_compute; reflexivity|].
    rewrite Hrun. do 2 f_equal. apply Hone.
    + right; left.
    + vm_compute; reflexivity.
    + intros d Hd Hid.
      repeat (apply elem_of_cons in Hd as [->|Hd];
              [first [reflexivity | vm_compute in Hid; discriminate]|]).
      by apply not_elem_of_nil in Hd.
Defined.

(** ** MediaEntry.url_to_prev and MediaEntry.url_to_next *)

(** A cursor that was sorted and limited to one document: either nothing
    matches and it counts zero, or its first document is a matching
    document that the order puts before every other matching document. *)
Lemma sorted_limit_first (key : string) (dir : direction) (docs : list Document) (q : query) :
  let cursor := cursor_limit 1 (cursor_sort key dir (find docs q)) in
  (cursor_count cursor = 0 ∧ ∀ d, d ∈ docs → doc_matches q d = false)
  ∨ (∃ m, cursor_count cursor ≠ 0 ∧ cursor_list cursor !! 0 = Some m
        ∧ m ∈ docs ∧ doc_matches q m = true
        ∧ ∀ d, d ∈ docs → doc_matches q d = true → doc_order key dir m d).
Proof.
  simpl. unfold cursor_count, cursor_list; simpl.
  set (l := filter (λ d, Is_true (doc_matches q d)) docs).
  assert (∀ d, d ∈ l ↔ d ∈ docs ∧ doc_matches q d = true) as Hl.
  { intros d. unfold l. rewrite list_elem_of_filter, Is_true_true. tauto. }
  pose proof (merge_sort_Permutation (doc_order key dir) l) as Hp.
  destruct l as [|d0 l0] eqn:El.
  - left. split.
    + by rewrite Hp.
    + intros d Hd. destruct (doc_matches q d) eqn:E; [|done].
      assert (d ∈ []) as Hin by by apply Hl. by apply not_elem_of_nil in Hin.
  - right. rewrite <- El in *.
    destruct (merge_sort_head_is_Some key dir l) as [m Hm]; [by rewrite El|].
    exists m. apply merge_sort_head in Hm as Hmin. destruct Hmin as [Hin Hmin].
    apply Hl in Hin as [Hin Hmatch].
    split; [by rewrite Hp, El|]. split; [|split; [done|split; [done|]]].
    + rewrite head_lookup in Hm.
      destruct (merge_sort (doc_order key dir) l); simplify_eq/=. done.
    + intros d Hd Hdm. apply Hmin. by apply Hl.
Qed.

Lemma later_entry_matches (st : State) (up : value) (i : N) (d : Document) :
  up ≠ VNone →
  (d ∈ media_entries (database st)
   ∧ doc_matches [("_id", QGt (VObjectId i)); ("uploader", QEq up);
                  ("state", QEq (VUnicode "processed"))] d = true)
  ↔ ∃ j, later_entry st up i d j.
Proof.
  intros Hup. unfold later_entry, processed_of; simpl.
  rewrite !andb_true_iff, !cond_holds_eq by done.
  split.
  - intros (Hd & Hid & Hu & Hs & _).
    destruct (d !! "_id") as [w|] eqn:E; simpl in Hid; [|done].
    apply value_ltb_oid_l in Hid as (j & -> & Hj). eauto 10.
  - intros (j & Hd & [Hu Hs] & Hid & Hj). rewrite Hid; simpl.
    split; [done|]. split; [|done]. apply value_ltb_oid_l. eauto.
Qed.

Lemma earlier_entry_matches (st : State) (up : value) (i : N) (d : Document) :
  up ≠ VNone →
  (d ∈ media_entries (database st)
   ∧ doc_matches [("_id", QLt (VObjectId i)); ("uploader", QEq up);
                  ("state", QEq (VUnicode "processed"))] d = true)
  ↔ ∃ j, earlier_entry st up i d j.
Proof.
  intros Hup. unfold earlier_entry, processed_of; simpl.
  rewrite !andb_true_iff, !cond_holds_eq by done.
  split.
  - intros (Hd & Hid & Hu & Hs & _).
    destruct (d !! "_id") as [w|] eqn:E; simpl in Hid; [|done].
    apply value_ltb_oid_r in Hid as (j & -> & Hj). eauto 10.
  - intros (j & Hd & [Hu Hs] & Hid & Hj). rewrite Hid; simpl.
    split; [done|]. split; [|done]. apply value_ltb_oid_r. eauto.
Qed.

Section Navigation.
Context `{!Collaborators}.

(** C2.  Let [self] have id [i] and uploader [up].  [url_to_prev] returns
    [None] when no stored processed entry of [up] has an id greater than
    [i]; otherwise it builds the link from such an entry whose id is the
    least one greater than [i].  [url_to_next] returns [None] when no stored
    processed entry of [up] has an id less than [i]; otherwise it builds the
    link from such an entry whose id is the greatest one less than [i]. *)
Theorem url_to_prev_next_neighbours (urlgen : urlgen_t) (st : State) (i : N) (up : value) :
  self st !! "_id" = Some (VObjectId i) →
  self st !! "uploader" = Some up →
  up ≠ VNone →
  ((∀ d j, ¬ later_entry st up i d j) → url_to_prev urlgen st = Ok (None, st))
  ∧ ((∃ d j, later_entry st up i d j) →
       ∃ m jm, later_entry st up i m jm
         ∧ (∀ d j, later_entry st up i d j → (jm ≤ j)%N)
         ∧ url_to_prev urlgen st = link_via urlgen m st)
  ∧ ((∀ d j, ¬ earlier_entry st up i d j) → url_to_next urlgen st = Ok (None, st))
  ∧ ((∃ d j, earlier_entry st up i d j) →
       ∃ m jm, earlier_entry st up i m jm
         ∧ (∀ d j, earlier_entry st up i d j → (j ≤ jm)%N)
         ∧ url_to_next urlgen st = link_via urlgen m st).
Proof.
  intros Hid Hup Hnn.
  assert (∀ (c : Cursor) (m : Document),
    cursor_count c ≠ 0 → cursor_list c !! 0 = Some m →
    (if bool_decide (cursor_count c ≠ 0) then
       u ← uploader; user ← subscript u "username";
       first ← cursor_getitem c 0; slug ← subscript (Some first) "slug";
       mret (Some (urlgen media_home user (unicode_of slug)))
     else mret None) st = link_via urlgen m st) as Hlink.
  { intros c m Hc Hm. rewrite bool_decide_eq_true_2 by done.
    unfold link_via, mbind, M_bind, cursor_getitem. rewrite Hm.
    destruct (uploader st) as [[u st']|e]; [|done].
    destruct (subscript u "username" st') as [[user st'']|e]; [|done].
    done. }
  split; [|split; [|split]].
  - intros Hno.
    unfold url_to_prev, mbind at 1 2 3, M_bind at 1 2 3, collection_of, getitem.
    rewrite Hid, Hup; simpl.
    destruct (sorted_limit_first "_id" ASCENDING (media_entries (database st))
      [("_id", QGt (VObjectId i)); ("uploader", QEq up);
       ("state", QEq (VUnicode "processed"))]) as [[H0 _]|(m & _ & _ & Hm & Hmm & _)].
    + by rewrite bool_decide_eq_false_2 by (rewrite H0; auto).
    + destruct (proj1 (later_entry_matches st up i m Hnn) (conj Hm Hmm)) as [j Hj].
      by destruct (Hno m j).
  - intros (d & j & Hd).
    unfold url_to_prev, mbind at 1 2 3, M_bind at 1 2 3, collection_of, getitem.
    rewrite Hid, Hup; simpl.
    destruct (sorted_limit_first "_id" ASCENDING (media_entries (database st))
      [("_id", QGt (VObjectId i)); ("uploader", QEq up);
       ("state", QEq (VUnicode "processed"))])
      as [[_ Hnone]|(m & Hc & H0 & Hm & Hmm & Hmin)].
    + assert (∃ j, later_entry st up i d j) as Hd' by eauto.
      apply later_entry_matches in Hd' as [Hin Hdm]; [|done].
      rewrite Hnone in Hdm; done.
    + destruct (proj1 (later_entry_matches st up i m Hnn) (conj Hm Hmm)) as [jm Hjm].
      exists m, jm. split; [done|]. split.
      * intros d' j' Hd'.
        assert (∃ j, later_entry st up i d' j) as Hex by eauto.
        apply later_entry_matches in Hex as [Hin' Hdm']; [|done].
        specialize (Hmin d' Hin' Hdm'). simpl in Hmin.
        destruct Hjm as (_ & _ & Hidm & _). destruct Hd' as (_ & _ & Hidd & _).
        rewrite Hidm, Hidd in Hmin.
        by apply Is_true_true, bson_leb_oid in Hmin.
      * by apply Hlink.
  - intros Hno.
    unfold url_to_next, mbind at 1 2 3, M_bind at 1 2 3, collection_of, getitem.
    rewrite Hid, Hup; simpl.
    destruct (sorted_limit_first "_id" DESCENDING (media_entries (database st))
      [("_id", QLt (VObjectId i)); ("uploader", QEq up);
       ("state", QEq (VUnicode "processed"))]) as [[H0 _]|(m & _ & _ & Hm & Hmm & _)].
    + by rewrite bool_decide_eq_false_2 by (rewrite H0; auto).
    + destruct (proj1 (earlier_entry_matches st up i m Hnn) (conj Hm Hmm)) as [j Hj].
      by destruct (Hno m j).
  - intros (d & j & Hd).
    unfold url_to_next, mbind at 1 2 3, M_bind at 1 2 3, collection_of, getitem.
    rewrite Hid, Hup; simpl.
    destruct (sorted_limit_first "_id" DESCENDING (media_entries (database st))
      [("_id", QLt (VObjectId i)); ("uploader", QEq up);
       ("state", QEq (VUnicode "processed"))])
      as [[_ Hnone]|(m & Hc & H0 & Hm & Hmm & Hmin)].
    + assert (∃ j, earlier_entry st up i d j) as Hd' by eauto.
      apply earlier_entry_matches in Hd' as [Hin Hdm]; [|done].
      rewrite Hnone in Hdm; done.
    + destruct (proj1 (earlier_entry_matches st up i m Hnn) (conj Hm Hmm)) as [jm Hjm].
      exists m, jm. split; [done|]. split.
      * intros d' j' Hd'.
        assert (∃ j, earlier_entry st up i d' j) as Hex by eauto.
        apply earlier_entry_matches in Hex as [Hin' Hdm']; [|done].
        specialize (Hmin d' Hin' Hdm'). simpl in Hmin.
        destruct Hjm as (_ & _ & Hidm & _). destruct Hd' as (_ & _ & Hidd & _).
        rewrite Hidm, Hidd in Hmin.
        by apply Is_true_true, bson_leb_oid in Hmin.
      * by apply Hlink.
Qed.

End Navigation.

(** In the sample gallery, seen from entry 2 of user 1: [url_to_prev] links
    to entry 3 and [url_to_next] links to entry 1. *)
Lemma url_to_prev_next_neighbours_witness :
  (∃ m : Document,
      m !! "_id" = Some (VObjectId 3)
      ∧ url_to_prev (H:=sample_collaborators) sample_urlgen sample_gallery_entry
        = link_via (H:=sample_collaborators) sample_urlgen m sample_gallery_entry)
  ∧ url_to_prev (H:=sample_collaborators) sample_urlgen sample_gallery_entry
    = Ok (Some "/u/alice/m/three", sample_gallery_entry)
  ∧ (∃ m : Document,
      m !! "_id" = Some (VObjectId 1)
      ∧ url_to_next (H:=sample_collaborators) sample_urlgen sample_gallery_entry
        = link_via (H:=sample_collaborators) sample_urlgen m sample_gallery_entry)
  ∧ url_to_next (H:=sample_collaborators) sample_urlgen sample_gallery_entry
    = Ok (Some "/u/alice/m/one", sample_gallery_entry).
Proof.
  destruct (url_to_prev_next_neighbours (H:=sample_collaborators) sample_urlgen
              sample_gallery_entry 2 (VObjectId 1))
    as (_ & Hprev & _ & Hnext);
    [vm_compute; reflexivity | vm_compute; reflexivity | discriminate |].
  assert (later_entry sample_gallery_entry (VObjectId 1) 2
            (sample_entry 3 1 "three" "processed") 3) as H3.
  { split; [left|]. split; [by vm_compute|]. split; [by vm_compute|lia]. }
  assert (earlier_entry sample_gallery_entry (VObjectId 1) 2
            (sample_entry 1 1 "one" "processed") 1) as H1.
  { split; [do 2 right; left|]. split; [by vm_compute|]. split; [by vm_compute|lia]. }
  destruct Hprev as (m & jm & Hm & Hmin & Hrun); [eauto|].
  destruct Hnext as (m' & jm' & Hm' & Hmax & Hrun'); [eauto|].
  split; [|split; [by vm_compute|split; [|by vm_compute]]].
  - exists m. split; [|done].
    destruct Hm as (_ & _ & Hid & Hlt). specialize (Hmin _ _ H3).
    rewrite Hid. do 2 f_equal. lia.
  - exists m'. split; [|done].
    destruct Hm' as (_ & _ & Hid & Hlt). specialize (Hmax _ _ H1).
    rewrite Hid. do 2 f_equal. lia.
Defined.

(** ** MediaEntry.generate_slug *)

Section Slugs.
Context `{!Collaborators}.

Lemma slug_taken_find_one (st : State) (s : string) :
  slug_taken st s
  ↔ is_Some (find_one (media_entries (database st)) [("slug", QEq (VUnicode s))]).
Proof.
  unfold slug_taken. split.
  - intros (d & Hd & Hs).
    destruct (find_one _ _) as [d'|] eqn:E; [eauto|].
    rewrite find_one_None in E. specialize (E d Hd). simpl in E.
    rewrite andb_true_r in E.
    apply (cond_holds_eq (VUnicode s)) in Hs; [congruence|done].
  - intros [d Hd]. apply find_one_Some in Hd as [Hd Hm]. exists d. split; [done|].
    simpl in Hm. rewrite andb_true_r in Hm. by apply cond_holds_eq in Hm.
Qed.

(** What a run of [generate_slug] comes to, for a title that is text. *)
Lemma generate_slug_run (st : State) (t : string) :
  self st !! "title" = Some (VUnicode t) →
  generate_slug st =
    if bool_decide (is_Some (find_one (media_entries (database st))
                               [("slug", QEq (VUnicode (slugify t)))]))
    then match self st !! "_id" with
         | Some id => Ok (tt, with_slug st (unicode_of id +:+ "-" +:+ slugify t))
         | None => Raise KeyError
         end
    else Ok (tt, with_slug st (slugify t)).
Proof.
  intros Ht.
  unfold generate_slug, mbind, M_bind, getitem, setitem, collection_of, slugify_value.
  rewrite Ht; simpl. rewrite lookup_insert_eq; simpl.
  rewrite find_one_truthy by done.
  destruct (bool_decide _); [|done].
  cbn [self]. rewrite lookup_insert_ne by done.
  destruct (self st !! "_id") as [id|]; [|done].
  cbn [self database]. rewrite lookup_insert_eq. unfold with_slug; simpl.
  by rewrite insert_insert_eq.
Qed.

(** C3, as the code has it.  [generate_slug] sets the slug to
    [slugify(title)].  When no stored entry has that slug it is left so.
    When some stored entry has it (the stored copy of the entry itself
    counts: the query does not leave it out) the slug becomes the entry's id,
    a hyphen and the slug. *)
Theorem generate_slug_disambiguates (st : State) (t : string) :
  self st !! "title" = Some (VUnicode t) →
  (¬ slug_taken st (slugify t) →
     generate_slug st = Ok (tt, with_slug st (slugify t)))
  ∧ (slug_taken st (slugify t) →
     ∀ id : value, self st !! "_id" = Some id →
       generate_slug st = Ok (tt, with_slug st (unicode_of id +:+ "-" +:+ slugify t))).
Proof.
  intros Ht. rewrite (generate_slug_run st t Ht). split.
  - intros Hfree. rewrite bool_decide_eq_false_2; [done|].
    by rewrite <- slug_taken_find_one.
  - intros Htaken id Hid. rewrite bool_decide_eq_true_2, Hid; [done|].
    by rewrite <- slug_taken_find_one.
Qed.

(** C4.  A run of [generate_slug] that returns leaves the store as it was
    and changes no field of the entry other than [slug]. *)
Theorem generate_slug_frame (st st' : State) :
  generate_slug st = Ok (tt, st') →
  database st' = database st
  ∧ ∀ k : string, k ≠ "slug" → self st' !! k = self st !! k.
Proof.
  intros Hrun.
  assert (∃ s, st' = with_slug st s) as [s ->].
  { destruct (self st !! "title") as [title|] eqn:Ht.
    - destruct title as [| |t| | | |];
        try (unfold generate_slug, mbind, M_bind, getitem in Hrun;
             rewrite Ht in Hrun; discriminate).
      rewrite (generate_slug_run st t Ht) in Hrun.
      destruct (bool_decide _); [|simplify_eq; eauto].
      destruct (self st !! "_id"); simplify_eq; eauto.
    - unfold generate_slug, mbind, M_bind, getitem in Hrun.
      rewrite Ht in Hrun. discriminate. }
  split; [done|]. intros k Hk. unfold with_slug; simpl.
  by rewrite lookup_insert_ne.
Qed.

End Slugs.

(** A new entry whose slug is free gets the slug of its title. *)
Lemma generate_slug_disambiguates_witness :
  generate_slug (H:=sample_collaborators) sample_fresh
    = Ok (tt, with_slug sample_fresh "sunset")
  ∧ generate_slug (H:=sample_collaborators) sample_resaved
    = Ok (tt, with_slug sample_resaved "9-hello-world-").
Proof.
  split.
  - refine (proj1 (generate_slug_disambiguates (H:=sample_collaborators)
                     sample_fresh "Sunset" _) _).
    + vm_compute; reflexivity.
    + intros (d & Hd & Hs). vm_compute in Hd, Hs.
      apply elem_of_cons in Hd as [->|Hd]; [discriminate|].
      apply elem_of_cons in Hd as [->|Hd]; [discriminate|].
      by apply not_elem_of_nil in Hd.
  - refine (proj2 (generate_slug_disambiguates (H:=sample_collaborators)
                     sample_resaved "Hello World!" _) _ (VObjectId 9) _).
    + vm_compute; reflexivity.
    + exists sample_saved_entry. split; [right; left|]. vm_compute; reflexivity.
    + vm_compute; reflexivity.
Defined.

(** The duplicate check does not leave the entry itself out, as shows an
    entry that was saved with the slug of its title: no other stored
    entry has the slug "hello-world-", yet [generate_slug] does not leave it
    but rewrites it to "9-hello-world-". *)
Lemma generate_slug_collides_with_itself :
  self sample_resaved !! "title" = Some (VUnicode "Hello World!")
  ∧ slugify (Collaborators:=sample_collaborators) "Hello World!" = "hello-world-"
  ∧ (∀ d : Document,
       d ∈ media_entries (database sample_resaved) →
       d !! "slug" = Some (VUnicode "hello-world-") →
       d !! "_id" = self sample_resaved !! "_id")
  ∧ generate_slug (H:=sample_collaborators) sample_resaved
    = Ok (tt, with_slug sample_resaved "9-hello-world-")
  ∧ self (with_slug sample_resaved "9-hello-world-") !! "slug"
    ≠ Some (VUnicode "hello-world-").
Proof.
  split; [vm_compute; reflexivity|]. split; [vm_compute; reflexivity|].
  split; [|split].
  - intros d Hd Hs.
    apply elem_of_cons in Hd as [->|Hd]; [vm_compute in Hs; discriminate|].
    apply elem_of_cons in Hd as [->|Hd]; [vm_compute; reflexivity|].
    by apply not_elem_of_nil in Hd.
  - vm_compute; reflexivity.
  - vm_compute. discriminate.
Qed.

(** On the saved sample entry [generate_slug] returns, the store is the
    same afterwards and the title and the id of the entry are as before. *)
Lemma generate_slug_frame_witness :
  database (with_slug sample_resaved "9-hello-world-") = database sample_resaved
  ∧ ∀ k : string, k ≠ "slug" →
      self (with_slug sample_resaved "9-hello-world-") !! k = self sample_resaved !! k.
Proof.
  apply (generate_slug_frame (H:=sample_collaborators)).
  vm_compute; reflexivity.
Defined.

(** ** MediaEntry.get_display_media *)

Section DisplayMedia.
Context `{!Collaborators}.

Lemma get_display_media_loop_spec (media_map : gmap string value) (order : list string) :
  get_display_media_loop media_map (map_to_list media_map).*1 order
  = snd <$> get_display_media_spec media_map order.
Proof.
  induction order as [|media_size order IH]; simpl; [done|].
  destruct (media_map !! media_size) as [path|] eqn:E.
  - rewrite bool_decide_eq_true_2; [done|].
    apply list_elem_of_fmap. exists (media_size, path). split; [done|].
    by apply elem_of_map_to_list.
  - rewrite bool_decide_eq_false_2; [done|].
    intros Hin. apply list_elem_of_fmap in Hin as ([k v] & -> & Hkv).
    apply elem_of_map_to_list in Hkv. simpl in E. congruence.
Qed.

(** C10.  Whatever is passed for [fetch_order], [get_display_media] does the
    same: it returns the path that [media_map] holds for the first label of
    the module constant [DISPLAY_IMAGE_FETCHING_ORDER] that is one of its
    keys, or [None] when there is none, and changes nothing. *)
Theorem get_display_media_ignores_fetch_order
    (media_map : gmap string value) (o1 o2 : list string) :
  get_display_media media_map o1 = get_display_media media_map o2
  ∧ ∀ st : State,
      get_display_media media_map o1 st
      = Ok (snd <$> get_display_media_spec media_map DISPLAY_IMAGE_FETCHING_ORDER, st).
Proof.
  split; [reflexivity|]. intros st. unfold get_display_media.
  by rewrite get_display_media_loop_spec.
Qed.

(** C1, at the input [media_map = {"x": path}], [fetch_order = ["x"]]: the
    first label of [fetch_order] that is a key of [media_map] is "x", so the
    pair asked for is [("x", path)].  The code returns the bare [path] when
    "x" is among the labels of the module constant and [None] when it is
    not; it returns the pair in neither case. *)
Theorem get_display_media_at_single_label (path : value) (st : State) :
  get_display_media_spec {["x" := path]} ["x"] = Some ("x", path)
  ∧ get_display_media {["x" := path]} ["x"] st
    = Ok (if bool_decide ("x" ∈ DISPLAY_IMAGE_FETCHING_ORDER) then Some path else None, st).
Proof.
  split.
  - simpl. by rewrite lookup_singleton_eq.
  - unfold get_display_media. rewrite get_display_media_loop_spec.
    unfold mret, M_ret. do 2 f_equal.
    induction DISPLAY_IMAGE_FETCHING_ORDER as [|l order IH]; simpl; [done|].
    destruct (decide (l = "x")) as [->|Hl].
    + rewrite lookup_singleton_eq; simpl. done.
    + rewrite lookup_singleton_ne by done. rewrite IH.
      apply (f_equal (λ b : bool, if b then Some path else None)).
      apply bool_decide_ext. rewrite elem_of_cons.
      split; [by right|]. intros [Hx|Hx]; [congruence|done].
Qed.

End DisplayMedia.

(** With the labels medium, original, thumb for the module constant and a
    map that has a medium and a small rendition: asked for small first, the
    code answers with the medium path, where the first label of the given
    order that is a key, with its path, is the small one. *)
Example get_display_media_small_first :
  get_display_media (H:=sample_collaborators) sample_media_map ["small"; "medium"]
    sample_gallery_entry
  = Ok (Some (VList [VUnicode "media"; VUnicode "9"; VUnicode "medium.jpg"]),
        sample_gallery_entry)
  ∧ get_display_media_spec sample_media_map ["small"; "medium"]
    = Some ("small", VList [VUnicode "media"; VUnicode "9"; VUnicode "small.jpg"])
  ∧ get_display_media_spec sample_media_map ["large"; "medium"; "small"]
    = Some ("medium", VList [VUnicode "media"; VUnicode "9"; VUnicode "medium.jpg"]).
Proof. repeat split; vm_compute; reflexivity. Qed.

(** ** User.check_login *)

Section Login.
Context `{!Collaborators}.

(** C8.  For a user whose [pw_hash] is the text [h] and any candidate
    password, [check_login] returns a boolean, which is true exactly when
    hashing the candidate under [h] gives [h]; it raises nothing and leaves
    the user and the store as they were. *)
Theorem check_login_matches_hash (st : State) (h password : string) :
  self st !! "pw_hash" = Some (VUnicode h) →
  ∃ b : bool,
    check_login password st = Ok (b, st)
    ∧ (b = true ↔ bcrypt_hashpw password h = h).
Proof.
  intros Hh. exists (bcrypt_check_password password h). split.
  - unfold check_login, mbind, M_bind, getitem. by rewrite Hh.
  - unfold bcrypt_check_password. apply bool_decide_eq_true.
Qed.

End Login.

(** The sample user logs in with "secret"; the empty password and a
    password outside ASCII are turned down without an exception. *)
Lemma check_login_matches_hash_witness :
  check_login (H:=sample_collaborators) "secret" sample_login = Ok (true, sample_login)
  ∧ check_login (H:=sample_collaborators) "" sample_login = Ok (false, sample_login)
  ∧ check_login (H:=sample_collaborators) "sécret" sample_login = Ok (false, sample_login).
Proof.
  destruct (check_login_matches_hash (H:=sample_collaborators)
              sample_login "hash:secret" "secret") as (b & Hrun & _);
    [vm_compute; reflexivity|].
  repeat split; vm_compute; reflexivity.
Defined.

(** ** Creation of records *)

Lemma field_ok_false (sch : Schema) (k : string) (v : value) :
  field_ok sch k v = false ↔ rejected sch k v.
Proof.
  unfold field_ok, rejected. destruct (structure sch !! k) as [t|].
  - split; [eauto|]. intros [?|(t' & [= <-] & ?)]; done.
  - split; [auto|done].
Qed.

Lemma fields_checked (sch : Schema) (fields : Document) :
  bool_decide (map_Forall (λ k v, Is_true (field_ok sch k v)) fields) = false
  ↔ ∃ k v, fields !! k = Some v ∧ rejected sch k v.
Proof.
  rewrite bool_decide_eq_false.
  rewrite (map_not_Forall (λ k v, Is_true (field_ok sch k v)) fields). split.
  - intros (k & v & Hkv & Hno). exists k, v. split; [done|].
    by apply field_ok_false, Is_true_false.
  - intros (k & v & Hkv & Hrej). exists k, v. split; [done|].
    by apply Is_true_false, field_ok_false.
Qed.


Lemma required_checked (fields : Document) (required : list string) :
  forallb (λ k, bool_decide (is_Some (fields !! k))) required = false
  ↔ ∃ k, k ∈ required ∧ fields !! k = None.
Proof.
  induction required as [|k0 required IH]; simpl.
  - split; [done|]. intros (k & Hk & _). by apply not_elem_of_nil in Hk.
  - rewrite andb_false_iff, IH, bool_decide_eq_false. split.
    + intros [Hk0|(k & Hk & Hnone)].
      * exists k0. split; [left|]. by apply eq_None_not_Some.
      * exists k. split; [by right|done].
    + intros (k & Hk & Hnone). apply elem_of_cons in Hk as [->|Hk].
      * left. by apply eq_None_not_Some.
      * right. eauto.
Qed.

Lemma create_outcome (sch : Schema) (env : Moment) (fields : Document) :
  (create sch env fields = Raise ValidationError
   ∧ ((∃ k, k ∈ required_fields sch ∧ fields !! k = None)
      ∨ ∃ k v, fields !! k = Some v ∧ rejected sch k v))
  ∨ (create sch env fields = Ok (fields ∪ (provide env <$> default_values sch))
     ∧ (∀ k, k ∈ required_fields sch → is_Some (fields !! k))
     ∧ ∀ k v, fields !! k = Some v → ¬ rejected sch k v).
Proof.
  unfold create.
  destruct (bool_decide (map_Forall _ fields)) eqn:E1; simpl.
  - destruct (forallb _ (required_fields sch)) eqn:E2.
    + right. split; [done|]. split.
      * intros k Hk. destruct (fields !! k) eqn:Ek; [eauto|].
        assert (forallb (λ k, bool_decide (is_Some (fields !! k)))
                  (required_fields sch) = false) as Hf
          by (apply required_checked; eauto).
        congruence.
      * intros k v Hkv Hrej.
        assert (bool_decide (map_Forall (λ k v, Is_true (field_ok sch k v)) fields)
                = false) as Hf by (apply fields_checked; eauto).
        congruence.
    + left. split; [done|]. left. by apply required_checked.
  - left. split; [done|]. right. by apply fields_checked.
Qed.

(** C6.  Creation of a [MediaEntry] fails with a validation error exactly
    when one of [uploader], [created], [media_type], [slug] is not among the
    supplied fields or a supplied field is unknown to the structure or has
    the wrong type; in every other case it succeeds, and the record keeps
    every supplied field. *)
Theorem MediaEntry_creation_fails_iff (env : Moment) (fields : Document) :
  (create MediaEntry env fields = Raise ValidationError
   ↔ (fields !! "uploader" = None ∨ fields !! "created" = None
      ∨ fields !! "media_type" = None ∨ fields !! "slug" = None)
     ∨ ∃ k v, fields !! k = Some v ∧ rejected MediaEntry k v)
  ∧ ((∃ doc : Document,
        create MediaEntry env fields = Ok doc
        ∧ ∀ k v, fields !! k = Some v → doc !! k = Some v)
     ↔ (is_Some (fields !! "uploader") ∧ is_Some (fields !! "created")
        ∧ is_Some (fields !! "media_type") ∧ is_Some (fields !! "slug"))
       ∧ ∀ k v, fields !! k = Some v → ¬ rejected MediaEntry k v).
Proof.
  assert ((∃ k, k ∈ required_fields MediaEntry ∧ fields !! k = None)
          ↔ (fields !! "uploader" = None ∨ fields !! "created" = None
             ∨ fields !! "media_type" = None ∨ fields !! "slug" = None)) as Hreq.
  { simpl. split.
    - intros (k & Hk & Hnone).
      repeat (apply elem_of_cons in Hk as [->|Hk]; [tauto|]).
      by apply not_elem_of_nil in Hk.
    - intros [H|[H|[H|H]]]; eexists; (split; [|exact H]).
      + left.
      + right; left.
      + do 2 right; left.
      + do 3 right; left. }
  destruct (create_outcome MediaEntry env fields)
    as [[Hrun Hwhy]|(Hrun & Hpresent & Htyped)].
  - rewrite Hreq in Hwhy. split.
    + by split.
    + split.
      * intros (doc & Hdoc & _). congruence.
      * intros [(Hu & Hc & Hm & Hs) Hok]. exfalso.
        destruct Hwhy as [[H|[H|[H|H]]]|(k & v & Hkv & Hrej)];
          try (rewrite H in *; by eapply is_Some_None).
        by apply (Hok k v).
  - split.
    + split; [congruence|]. intros [Habsent|(k & v & Hkv & Hrej)].
      * apply Hreq in Habsent as (k & Hk & Hnone).
        destruct (Hpresent k Hk) as [v Hv]. congruence.
      * by destruct (Htyped k v).
    + split.
      * intros _. split; [|done].
        repeat split; apply Hpresent; simpl.
        -- left.
        -- right; left.
        -- do 2 right; left.
        -- do 3 right; left.
      * intros _. eexists. split; [exact Hrun|].
        intros k v Hkv. by apply lookup_union_Some_l.
Qed.

(** The sample submission is accepted; without its slug, or with a title
    that is a number of sorts instead of text, or with a field the
    structure does not know, it is turned down. *)
Lemma MediaEntry_creation_fails_iff_witness :
  (∃ doc : Document, create MediaEntry sample_moment sample_submission = Ok doc
     ∧ doc !! "state" = Some (VUnicode "unprocessed"))
  ∧ create MediaEntry sample_moment (delete "slug" sample_submission)
    = Raise ValidationError
  ∧ create MediaEntry sample_moment (<["title" := VObjectId 7]> sample_submission)
    = Raise ValidationError
  ∧ create MediaEntry sample_moment (<["colour" := VUnicode "red"]> sample_submission)
    = Raise ValidationError.
Proof.
  split; [|split; [|split]].
  - eexists. split; vm_compute; reflexivity.
  - apply (MediaEntry_creation_fails_iff sample_moment (delete "slug" sample_submission)).
    left. do 3 right. vm_compute; reflexivity.
  - apply (MediaEntry_creation_fails_iff sample_moment
             (<["title" := VObjectId 7]> sample_submission)).
    right. exists "title", (VObjectId 7). split; [vm_compute; reflexivity|].
    right. exists TUnicode. split; vm_compute; reflexivity.
  - apply (MediaEntry_creation_fails_iff sample_moment
             (<["colour" := VUnicode "red"]> sample_submission)).
    right. exists "colour", (VUnicode "red"). split; [vm_compute; reflexivity|].
    left. vm_compute; reflexivity.
Defined.



(** * Further properties *)

(** ** MediaEntry.uploader *)

Lemma uploader_run (st : State) (w : N) :
  self st !! "uploader" = Some (VObjectId w) →
  uploader st = Ok (find_one (users (database st)) [("_id", QEq (VObjectId w))], st).
Proof.
  intros Hup. unfold uploader, mbind, M_bind, collection_of, getitem.
  by rewrite Hup.
Qed.

(** X1.  [uploader()] raises [KeyError] on an entry without an [uploader]
    field.  On an entry whose uploader is an id it raises nothing and leaves
    everything as it was: it returns [None] exactly when no stored user has
    that id, and a record it returns is a stored user with that id. *)
Theorem uploader_lookup (st : State) :
  (self st !! "uploader" = None → uploader st = Raise KeyError)
  ∧ ∀ w : N, self st !! "uploader" = Some (VObjectId w) →
      ∃ r : option Document,
        uploader st = Ok (r, st)
        ∧ (r = None ↔
             ∀ u : Document, u ∈ users (database st) → u !! "_id" ≠ Some (VObjectId w))
        ∧ ∀ u : Document, r = Some u →
            u ∈ users (database st) ∧ u !! "_id" = Some (VObjectId w).
Proof.
  split.
  - intros Hno. unfold uploader, mbind, M_bind, collection_of, getitem.
    by rewrite Hno.
  - intros w Hup. eexists. split; [by apply uploader_run|].
    pose proof (find_one_by_id (users (database st)) w) as H.
    destruct (find_one (users (database st)) [("_id", QEq (VObjectId w))]) as [u|].
    + destruct H as [Hu Hid]. split.
      * split; [done|]. intros Hno. by destruct (Hno u Hu).
      * by intros ? [= <-].
    + split; [done|]. by intros u [=].
Qed.

(** The uploader of sample entry 2 is the stored user alice. *)
Lemma uploader_lookup_witness :
  ∃ r : option Document,
    uploader sample_gallery_entry = Ok (r, sample_gallery_entry)
    ∧ r = Some (sample_user 1 "alice").
Proof.
  destruct (proj2 (uploader_lookup sample_gallery_entry) 1%N) as (r & Hrun & _ & _);
    [vm_compute; reflexivity|].
  exists r. split; [exact Hrun|].
  vm_compute in Hrun. injection Hrun as <-. vm_compute; reflexivity.
Defined.

(** ** MediaEntry.url_for_self *)

Section SelfLinks.
Context `{!Collaborators}.

Lemma url_for_self_run (urlgen : urlgen_any) (st : State) (u : Document) (name : value) :
  uploader st = Ok (Some u, st) → u !! "username" = Some name →
  url_for_self urlgen st =
    if py_truth (self st !! "slug") then
      match self st !! "slug" with
      | Some slug => Ok (urlgen media_home name slug, st)
      | None => Raise KeyError
      end
    else
      match self st !! "_id" with
      | Some id => Ok (urlgen media_home name (VUnicode (unicode_of id)), st)
      | None => Raise KeyError
      end.
Proof.
  intros Hu Hname.
  unfold url_for_self, mbind at 1, M_bind at 1. rewrite Hu.
  unfold mbind at 1, M_bind at 1, dict_get.
  destruct (py_truth (self st !! "slug"));
    unfold mbind, M_bind, subscript, getitem; rewrite Hname; simpl.
  - by destruct (self st !! "slug").
  - by destruct (self st !! "_id").
Qed.

(** X2.  "Use a slug if we have one, else use our [_id]": when the
    uploader is stored and has a user name, [url_for_self] builds the link
    with the slug of the entry if that is a text that is not empty, and with
    the text form of the [_id] if the entry has no slug, or the slug is
    [None] or the empty text.  Nothing is changed. *)
Theorem url_for_self_slug_or_id (urlgen : urlgen_any) (st : State)
    (u : Document) (name : value) :
  uploader st = Ok (Some u, st) → u !! "username" = Some name →
  (∀ s : string, self st !! "slug" = Some (VUnicode s) → s ≠ "" →
     url_for_self urlgen st = Ok (urlgen media_home name (VUnicode s), st))
  ∧ ∀ id : value, self st !! "_id" = Some id →
      (self st !! "slug" = None ∨ self st !! "slug" = Some VNone
       ∨ self st !! "slug" = Some (VUnicode "")) →
      url_for_self urlgen st
      = Ok (urlgen media_home name (VUnicode (unicode_of id)), st).
Proof.
  intros Hu Hname. rewrite (url_for_self_run urlgen st u name Hu Hname). split.
  - intros s Hs Hne. rewrite Hs; simpl.
    destruct (String.eqb s "") eqn:E; [|done].
    by apply String.eqb_eq in E.
  - intros id Hid [Hs|[Hs|Hs]]; rewrite Hs; simpl; by rewrite Hid.
Qed.

(** X3.  When no stored user has the id that the entry gives as its
    uploader, [url_for_self] raises [TypeError], and so do [url_to_prev] and
    [url_to_next] whenever there is a neighbour to link to: none of them
    returns a link without the user name. *)
Theorem dangling_uploader_raises (urlgen_a : urlgen_any) (urlgen : urlgen_t)
    (st : State) (w i : N) :
  self st !! "uploader" = Some (VObjectId w) →
  self st !! "_id" = Some (VObjectId i) →
  (∀ u : Document, u ∈ users (database st) → u !! "_id" ≠ Some (VObjectId w)) →
  url_for_self urlgen_a st = Raise TypeError
  ∧ ((∃ d j, later_entry st (VObjectId w) i d j) →
       url_to_prev urlgen st = Raise TypeError)
  ∧ ((∃ d j, earlier_entry st (VObjectId w) i d j) →
       url_to_next urlgen st = Raise TypeError).
Proof.
  intros Hup Hid Hgone.
  assert (uploader st = Ok (None, st)) as Hu.
  { rewrite (uploader_run st w Hup). by rewrite find_one_by_id_absent. }
  split; [|split].
  - unfold url_for_self, mbind at 1, M_bind at 1. rewrite Hu.
    unfold mbind at 1, M_bind at 1, dict_get.
    by destruct (py_truth (self st !! "slug")).
  - intros (d & j & Hd).
    unfold url_to_prev, mbind at 1 2 3, M_bind at 1 2 3, collection_of, getitem.
    rewrite Hid, Hup; simpl.
    destruct (sorted_limit_first "_id" ASCENDING (media_entries (database st))
      [("_id", QGt (VObjectId i)); ("uploader", QEq (VObjectId w));
       ("state", QEq (VUnicode "processed"))])
      as [[_ Hnone]|(m & Hc & _)].
    + assert (∃ j, later_entry st (VObjectId w) i d j) as Hd' by eauto.
      apply later_entry_matches in Hd' as [Hin Hdm]; [|done].
      rewrite Hnone in Hdm; done.
    + rewrite bool_decide_eq_true_2 by done.
      unfold mbind at 1, M_bind at 1. by rewrite Hu.
  - intros (d & j & Hd).
    unfold url_to_next, mbind at 1 2 3, M_bind at 1 2 3, collection_of, getitem.
    rewrite Hid, Hup; simpl.
    destruct (sorted_limit_first "_id" DESCENDING (media_entries (database st))
      [("_id", QLt (VObjectId i)); ("uploader", QEq (VObjectId w));
       ("state", QEq (VUnicode "processed"))])
      as [[_ Hnone]|(m & Hc & _)].
    + assert (∃ j, earlier_entry st (VObjectId w) i d j) as Hd' by eauto.
      apply earlier_entry_matches in Hd' as [Hin Hdm]; [|done].
      rewrite Hnone in Hdm; done.
    + rewrite bool_decide_eq_true_2 by done.
      unfold mbind at 1, M_bind at 1. by rewrite Hu.
Qed.

End SelfLinks.

(** Sample entry 2 links to itself by its slug; the fresh sample entry has
    no slug and links to itself by its id. *)
Lemma url_for_self_slug_or_id_witness :
  url_for_self (H:=sample_collaborators) sample_urlgen_any sample_gallery_entry
    = Ok ("/u/alice/m/two", sample_gallery_entry)
  ∧ url_for_self (H:=sample_collaborators) sample_urlgen_any sample_fresh
    = Ok ("/u/alice/m/10", sample_fresh).
Proof.
  split.
  - refine (proj1 (url_for_self_slug_or_id (H:=sample_collaborators) sample_urlgen_any
                     sample_gallery_entry (sample_user 1 "alice") (VUnicode "alice") _ _)
                  "two" _ _).
    + vm_compute; reflexivity.
    + vm_compute; reflexivity.
    + vm_compute; reflexivity.
    + discriminate.
  - refine (proj2 (url_for_self_slug_or_id (H:=sample_collaborators) sample_urlgen_any
                     sample_fresh (sample_user 1 "alice") (VUnicode "alice") _ _)
                  (VObjectId 10) _ _).
    + vm_compute; reflexivity.
    + vm_compute; reflexivity.
    + vm_compute; reflexivity.
    + left. vm_compute; reflexivity.
Defined.

(** The uploader 9 of the abandoned sample entry is not stored: all three
    links raise. *)
Lemma dangling_uploader_raises_witness :
  url_for_self (H:=sample_collaborators) sample_urlgen_any sample_abandoned_entry
    = Raise TypeError
  ∧ url_to_prev (H:=sample_collaborators) sample_urlgen sample_abandoned_entry
    = Raise TypeError
  ∧ url_to_next (H:=sample_collaborators) sample_urlgen sample_abandoned_entry
    = Raise TypeError.
Proof.
  destruct (dangling_uploader_raises (H:=sample_collaborators) sample_urlgen_any
              sample_urlgen sample_abandoned_entry 9 2) as (Hself & Hprev & Hnext).
  - vm_compute; reflexivity.
  - vm_compute; reflexivity.
  - intros u Hu.
    repeat (apply elem_of_cons in Hu as [->|Hu]; [vm_compute; discriminate|]).
    by apply not_elem_of_nil in Hu.
  - split; [exact Hself|]. split.
    + apply Hprev. exists (sample_entry 3 9 "three" "processed"), 3%N.
      split; [left|]. split; [by vm_compute|]. split; [by vm_compute|lia].
    + apply Hnext. exists (sample_entry 1 9 "one" "processed"), 1%N.
      split; [right; left|]. split; [by vm_compute|]. split; [by vm_compute|lia].
Defined.

(** ** Links between neighbours *)

Section Neighbours.
Context `{!Collaborators}.

Lemma link_of_cursor (urlgen : urlgen_t) (c : Cursor) (m : Document) (st : State) :
  cursor_count c ≠ 0 → cursor_list c !! 0 = Some m →
  (if bool_decide (cursor_count c ≠ 0) then
     u ← uploader; user ← subscript u "username";
     first ← cursor_getitem c 0; slug ← subscript (Some first) "slug";
     mret (Some (urlgen media_home user (unicode_of slug)))
   else mret None) st = link_via urlgen m st.
Proof.
  intros Hc Hm. rewrite bool_decide_eq_true_2 by done.
  unfold link_via, mbind, M_bind, cursor_getitem. rewrite Hm.
  destruct (uploader st) as [[u st']|e]; [|done].
  destruct (subscript u "username" st') as [[user st'']|e]; [|done].
  done.
Qed.

Lemma url_to_prev_run (urlgen : urlgen_t) (st : State) (i : N) (up : value) :
  self st !! "_id" = Some (VObjectId i) →
  self st !! "uploader" = Some up →
  up ≠ VNone →
  ((∀ d j, ¬ later_entry st up i d j) ∧ url_to_prev urlgen st = Ok (None, st))
  ∨ ∃ m jm, later_entry st up i m jm
      ∧ (∀ d j, later_entry st up i d j → (jm ≤ j)%N)
      ∧ url_to_prev urlgen st = link_via urlgen m st.
Proof.
  intros Hid Hup Hnn.
  assert (url_to_prev urlgen st =
    (let cursor := cursor_limit 1 (cursor_sort "_id" ASCENDING
       (find (media_entries (database st))
          [("_id", QGt (VObjectId i)); ("uploader", QEq up);
           ("state", QEq (VUnicode "processed"))])) in
     if bool_decide (cursor_count cursor ≠ 0) then
       u ← uploader; user ← subscript u "username";
       first ← cursor_getitem cursor 0; slug ← subscript (Some first) "slug";
       mret (Some (urlgen media_home user (unicode_of slug)))
     else mret None) st) as ->.
  { unfold url_to_prev, mbind at 1 2 3, M_bind at 1 2 3, collection_of, getitem.
    by rewrite Hid, Hup. }
  cbv zeta.
  destruct (sorted_limit_first "_id" ASCENDING (media_entries (database st))
    [("_id", QGt (VObjectId i)); ("uploader", QEq up);
     ("state", QEq (VUnicode "processed"))])
    as [[H0 Hnone]|(m & Hc & Hfirst & Hm & Hmm & Hmin)].
  - left. split.
    + intros d j Hd.
      assert (∃ j, later_entry st up i d j) as Hd' by eauto.
      apply later_entry_matches in Hd' as [Hin Hdm]; [|done].
      rewrite Hnone in Hdm; done.
    + by rewrite bool_decide_eq_false_2 by (rewrite H0; auto).
  - right.
    destruct (proj1 (later_entry_matches st up i m Hnn) (conj Hm Hmm)) as [jm Hjm].
    exists m, jm. split; [done|]. split.
    + intros d' j' Hd'.
      assert (∃ j, later_entry st up i d' j) as Hex by eauto.
      apply later_entry_matches in Hex as [Hin' Hdm']; [|done].
      specialize (Hmin d' Hin' Hdm'). simpl in Hmin.
      destruct Hjm as (_ & _ & Hidm & _). destruct Hd' as (_ & _ & Hidd & _).
      rewrite Hidm, Hidd in Hmin.
      by apply Is_true_true, bson_leb_oid in Hmin.
    + exact (link_of_cursor urlgen _ m st Hc Hfirst).
Qed.

Lemma url_to_next_run (urlgen : urlgen_t) (st : State) (i : N) (up : value) :
  self st !! "_id" = Some (VObjectId i) →
  self st !! "uploader" = Some up →
  up ≠ VNone →
  ((∀ d j, ¬ earlier_entry st up i d j) ∧ url_to_next urlgen st = Ok (None, st))
  ∨ ∃ m jm, earlier_entry st up i m jm
      ∧ (∀ d j, earlier_entry st up i d j → (j ≤ jm)%N)
      ∧ url_to_next urlgen st = link_via urlgen m st.
Proof.
  intros Hid Hup Hnn.
  assert (url_to_next urlgen st =
    (let cursor := cursor_limit 1 (cursor_sort "_id" DESCENDING
       (find (media_entries (database st))
          [("_id", QLt (VObjectId i)); ("uploader", QEq up);
           ("state", QEq (VUnicode "processed"))])) in
     if bool_decide (cursor_count cursor ≠ 0) then
       u ← uploader; user ← subscript u "username";
       first ← cursor_getitem cursor 0; slug ← subscript (Some first) "slug";
       mret (Some (urlgen media_home user (unicode_of slug)))
     else mret None) st) as ->.
  { unfold url_to_next, mbind at 1 2 3, M_bind at 1 2 3, collection_of, getitem.
    by rewrite Hid, Hup. }
  cbv zeta.
  destruct (sorted_limit_first "_id" DESCENDING (media_entries (database st))
    [("_id", QLt (VObjectId i)); ("uploader", QEq up);
     ("state", QEq (VUnicode "processed"))])
    as [[H0 Hnone]|(m & Hc & Hfirst & Hm & Hmm & Hmin)].
  - left. split.
    + intros d j Hd.
      assert (∃ j, earlier_entry st up i d j) as Hd' by eauto.
      apply earlier_entry_matches in Hd' as [Hin Hdm]; [|done].
      rewrite Hnone in Hdm; done.
    + by rewrite bool_decide_eq_false_2 by (rewrite H0; auto).
  - right.
    destruct (proj1 (earlier_entry_matches st up i m Hnn) (conj Hm Hmm)) as [jm Hjm].
    exists m, jm. split; [done|]. split.
    + intros d' j' Hd'.
      assert (∃ j, earlier_entry st up i d' j) as Hex by eauto.
      apply earlier_entry_matches in Hex as [Hin' Hdm']; [|done].
      specialize (Hmin d' Hin' Hdm'). simpl in Hmin.
      destruct Hjm as (_ & _ & Hidm & _). destruct Hd' as (_ & _ & Hidd & _).
      rewrite Hidm, Hidd in Hmin.
      by apply Is_true_true, bson_leb_oid in Hmin.
    + exact (link_of_cursor urlgen _ m st Hc Hfirst).
Qed.

(** The link built from an entry [m] of the same uploader that has a slug
    which is a text and not empty is the link [m] builds to itself. *)
Lemma link_via_is_url_for_self (urlgen : urlgen_any) (st : State) (m : Document)
    (up : value) (s : string) :
  self st !! "uploader" = Some up → m !! "uploader" = Some up →
  m !! "slug" = Some (VUnicode s) → s ≠ "" →
  link_via (text_media urlgen) m st
  = returned_link st (url_for_self urlgen (on_document st m)).
Proof.
  intros Hup Hmup Hs Hne.
  unfold link_via, url_for_self, uploader, mbind, M_bind, collection_of, getitem,
    dict_get, on_document; simpl.
  assert (String.eqb s "" = false) as E.
  { destruct (String.eqb s "") eqn:E; [by apply String.eqb_eq in E|done]. }
  rewrite Hup, Hmup; simpl.
  destruct (find_one (users (database st)) [("_id", QEq up)]) as [u|]; simpl;
    rewrite ?Hs; simpl; rewrite ?E; simpl; [|done].
  destruct (u !! "username"); simpl; [|done].
  by rewrite ?Hs.
Qed.

(** X4.  When every stored entry has a slug that is a text and not empty,
    the link that [url_to_prev] returns is the link that the neighbour it
    found builds to itself with [url_for_self], and so is the link that
    [url_to_next] returns: both ways of linking to an entry agree. *)
Theorem neighbour_link_is_its_own_url (urlgen : urlgen_any) (st : State)
    (i : N) (up : value) :
  self st !! "_id" = Some (VObjectId i) →
  self st !! "uploader" = Some up →
  up ≠ VNone →
  (∀ d : Document, d ∈ media_entries (database st) →
     ∃ s : string, d !! "slug" = Some (VUnicode s) ∧ s ≠ "") →
  ((∃ d j, later_entry st up i d j) →
     ∃ m jm, later_entry st up i m jm
       ∧ (∀ d j, later_entry st up i d j → (jm ≤ j)%N)
       ∧ url_to_prev (text_media urlgen) st
         = returned_link st (url_for_self urlgen (on_document st m)))
  ∧ ((∃ d j, earlier_entry st up i d j) →
     ∃ m jm, earlier_entry st up i m jm
       ∧ (∀ d j, earlier_entry st up i d j → (j ≤ jm)%N)
       ∧ url_to_next (text_media urlgen) st
         = returned_link st (url_for_self urlgen (on_document st m))).
Proof.
  intros Hid Hup Hnn Hslugs. split.
  - intros (d & j & Hd).
    destruct (url_to_prev_run (text_media urlgen) st i up Hid Hup Hnn)
      as [[Hno _]|(m & jm & Hm & Hmin & Hrun)]; [by destruct (Hno d j)|].
    exists m, jm. split; [done|]. split; [done|]. rewrite Hrun.
    destruct Hm as (Hin & [Hmup _] & _). destruct (Hslugs m Hin) as (s & Hs & Hne).
    by apply (link_via_is_url_for_self urlgen st m up s).
  - intros (d & j & Hd).
    destruct (url_to_next_run (text_media urlgen) st i up Hid Hup Hnn)
      as [[Hno _]|(m & jm & Hm & Hmax & Hrun)]; [by destruct (Hno d j)|].
    exists m, jm. split; [done|]. split; [done|]. rewrite Hrun.
    destruct Hm as (Hin & [Hmup _] & _). destruct (Hslugs m Hin) as (s & Hs & Hne).
    by apply (link_via_is_url_for_self urlgen st m up s).
Qed.

(** X5.  [url_to_prev] and [url_to_next] read the slug of the neighbour
    with a subscript: when the uploader is stored with a user name and the
    neighbours were stored without a slug, they raise [KeyError] (there is
    no falling back on the id as in [url_for_self]). *)
Theorem neighbour_without_slug_raises (urlgen : urlgen_t) (st : State)
    (i : N) (up : value) (u : Document) (name : value) :
  self st !! "_id" = Some (VObjectId i) →
  self st !! "uploader" = Some up →
  up ≠ VNone →
  uploader st = Ok (Some u, st) → u !! "username" = Some name →
  ((∃ d j, later_entry st up i d j) →
   (∀ d j, later_entry st up i d j → d !! "slug" = None) →
   url_to_prev urlgen st = Raise KeyError)
  ∧ ((∃ d j, earlier_entry st up i d j) →
     (∀ d j, earlier_entry st up i d j → d !! "slug" = None) →
     url_to_next urlgen st = Raise KeyError).
Proof.
  intros Hid Hup Hnn Hu Hname.
  assert (∀ m, m !! "slug" = None → link_via urlgen m st = Raise KeyError) as Hlink.
  { intros m Hs. unfold link_via, mbind at 1, M_bind at 1. rewrite Hu.
    unfold mbind, M_bind, subscript. by rewrite Hname, Hs. }
  split.
  - intros (d & j & Hd) Hnoslug.
    destruct (url_to_prev_run urlgen st i up Hid Hup Hnn)
      as [[Hno _]|(m & jm & Hm & _ & Hrun)]; [by destruct (Hno d j)|].
    rewrite Hrun. apply Hlink. by apply (Hnoslug m jm).
  - intros (d & j & Hd) Hnoslug.
    destruct (url_to_next_run urlgen st i up Hid Hup Hnn)
      as [[Hno _]|(m & jm & Hm & _ & Hrun)]; [by destruct (Hno d j)|].
    rewrite Hrun. apply Hlink. by apply (Hnoslug m jm).
Qed.

(** X6.  Going back from where [url_to_prev] leads: let the entry be stored
    as a processed entry, and let [m] be the neighbour that [url_to_prev]
    links to, the processed entry of the same uploader with the least id
    above.  Then [url_to_next], called on [m], links to a stored processed
    entry that has the id of the entry we started from. *)
Theorem next_of_prev_is_self (urlgen : urlgen_t) (st : State) (i jm : N)
    (up : value) (e m : Document) :
  up ≠ VNone →
  e ∈ media_entries (database st) → processed_of up e →
  e !! "_id" = Some (VObjectId i) →
  later_entry st up i m jm →
  (∀ d j, later_entry st up i d j → (jm ≤ j)%N) →
  ∃ m' : Document,
    m' ∈ media_entries (database st) ∧ processed_of up m'
    ∧ m' !! "_id" = Some (VObjectId i)
    ∧ url_to_next urlgen (on_document st m) = link_via urlgen m' (on_document st m).
Proof.
  intros Hnn He Hpe Heid (Hm & Hpm & Hmid & Hlt) Hmin.
  destruct (url_to_next_run urlgen (on_document st m) jm up)
    as [[Hno _]|(m' & j' & Hm' & Hmax & Hrun)]; [done|by destruct Hpm|done| |].
  - destruct (Hno e i). unfold earlier_entry, on_document; simpl. auto.
  - exists m'. destruct Hm' as (Hin' & Hp' & Hid' & Hlt').
    split; [done|]. split; [done|]. split; [|done].
    assert (i ≤ j')%N as Hle.
    { apply (Hmax e i). unfold earlier_entry, on_document; simpl. auto. }
    destruct (decide (i = j')) as [->|Hne]; [done|].
    assert (jm ≤ j')%N.
    { apply (Hmin m' j'). unfold later_entry. simpl in Hin'.
      split; [done|]. split; [done|]. split; [done|lia]. }
    lia.
Qed.

(** X7.  Going forth from where [url_to_next] leads: let the entry be
    stored as a processed entry, and let [m] be the neighbour that
    [url_to_next] links to, the processed entry of the same uploader with
    the greatest id below.  Then [url_to_prev], called on [m], links to a
    stored processed entry that has the id of the entry we started from. *)
Theorem prev_of_next_is_self (urlgen : urlgen_t) (st : State) (i jm : N)
    (up : value) (e m : Document) :
  up ≠ VNone →
  e ∈ media_entries (database st) → processed_of up e →
  e !! "_id" = Some (VObjectId i) →
  earlier_entry st up i m jm →
  (∀ d j, earlier_entry st up i d j → (j ≤ jm)%N) →
  ∃ m' : Document,
    m' ∈ media_entries (database st) ∧ processed_of up m'
    ∧ m' !! "_id" = Some (VObjectId i)
    ∧ url_to_prev urlgen (on_document st m) = link_via urlgen m' (on_document st m).
Proof.
  intros Hnn He Hpe Heid (Hm & Hpm & Hmid & Hlt) Hmax.
  destruct (url_to_prev_run urlgen (on_document st m) jm up)
    as [[Hno _]|(m' & j' & Hm' & Hmin & Hrun)]; [done|by destruct Hpm|done| |].
  - destruct (Hno e i). unfold later_entry, on_document; simpl. auto.
  - exists m'. destruct Hm' as (Hin' & Hp' & Hid' & Hlt').
    split; [done|]. split; [done|]. split; [|done].
    assert (j' ≤ i)%N as Hle.
    { apply (Hmin e i). unfold later_entry, on_document; simpl. auto. }
    destruct (decide (i = j')) as [->|Hne]; [done|].
    assert (j' ≤ jm)%N.
    { apply (Hmax m' j'). unfold earlier_entry. simpl in Hin'.
      split; [done|]. split; [done|]. split; [done|lia]. }
    lia.
Qed.

End Neighbours.

(** Case analysis on a document taken from a sample collection, with the
    facts known about it evaluated on each member. *)
Ltac sample_member Hin Hfacts :=
  repeat (apply elem_of_cons in Hin as [->|Hin]; [Hfacts|]);
  try (by apply not_elem_of_nil in Hin).

(** In the sample gallery every entry has a slug: from entry 2,
    [url_to_prev] returns the link that entry 3 builds to itself. *)
Lemma neighbour_link_is_its_own_url_witness :
  ∃ m : Document,
    m = sample_entry 3 1 "three" "processed"
    ∧ url_to_prev (H:=sample_collaborators) (text_media sample_urlgen_any)
        sample_gallery_entry
      = returned_link sample_gallery_entry
          (url_for_self (H:=sample_collaborators) sample_urlgen_any
             (on_document sample_gallery_entry m)).
Proof.
  destruct (proj1 (neighbour_link_is_its_own_url (H:=sample_collaborators)
                     sample_urlgen_any sample_gallery_entry 2 (VObjectId 1)
                     ltac:(vm_compute; reflexivity) ltac:(vm_compute; reflexivity)
                     ltac:(discriminate)
                     ltac:(intros d Hd;
                           sample_member Hd ltac:(eexists; split;
                             [vm_compute; reflexivity|discriminate]))))
    as (m & jm & (Hin & _ & Hid & Hlt) & Hmin & Hrun).
  - exists (sample_entry 3 1 "three" "processed"), 3%N.
    split; [left|]. split; [by vm_compute|]. split; [by vm_compute|lia].
  - exists m. split; [|exact Hrun].
    assert (jm = 3%N) as ->.
    { assert (jm ≤ 3)%N; [|lia].
      apply (Hmin (sample_entry 3 1 "three" "processed")).
      split; [left|]. split; [by vm_compute|]. split; [by vm_compute|lia]. }
    sample_member Hin ltac:(first [reflexivity | vm_compute in Hid; discriminate]).
Defined.

(** In the gallery whose entry 3 was stored without a slug, [url_to_prev]
    from entry 2 raises [KeyError]. *)
Lemma neighbour_without_slug_raises_witness :
  url_to_prev (H:=sample_collaborators) sample_urlgen sample_slugless_gallery
  = Raise KeyError.
Proof.
  refine (proj1 (neighbour_without_slug_raises (H:=sample_collaborators) sample_urlgen
                   sample_slugless_gallery 2 (VObjectId 1) (sample_user 1 "alice")
                   (VUnicode "alice") _ _ _ _ _) _ _).
  - vm_compute; reflexivity.
  - vm_compute; reflexivity.
  - discriminate.
  - vm_compute; reflexivity.
  - vm_compute; reflexivity.
  - exists (delete "slug" (sample_entry 3 1 "three" "processed")), 3%N.
    split; [left|]. split; [by vm_compute|]. split; [by vm_compute|lia].
  - intros d j (Hin & _ & Hid & Hlt).
    sample_member Hin ltac:(first [by vm_compute
                                  | vm_compute in Hid; simplify_eq; lia]).
Defined.

(** In the sample gallery [url_to_prev] leads from entry 2 to entry 3, and
    [url_to_next] leads from entry 3 back to an entry with id 2. *)
Lemma next_of_prev_is_self_witness :
  ∃ m' : Document,
    m' !! "_id" = Some (VObjectId 2)
    ∧ url_to_next (H:=sample_collaborators) sample_urlgen
        (on_document sample_gallery_entry (sample_entry 3 1 "three" "processed"))
      = link_via (H:=sample_collaborators) sample_urlgen m'
          (on_document sample_gallery_entry (sample_entry 3 1 "three" "processed")).
Proof.
  destruct (next_of_prev_is_self (H:=sample_collaborators) sample_urlgen
              sample_gallery_entry 2 3 (VObjectId 1)
              (sample_entry 2 1 "two" "processed")
              (sample_entry 3 1 "three" "processed"))
    as (m' & _ & _ & Hid & Hrun).
  - discriminate.
  - do 4 right; left.
  - by vm_compute.
  - vm_compute; reflexivity.
  - split; [left|]. split; [by vm_compute|]. split; [by vm_compute|lia].
  - intros d j (Hin & [Hu Hs] & Hid & Hlt).
    sample_member Hin ltac:(vm_compute in Hu, Hs, Hid; simplify_eq; lia).
  - exists m'. by split.
Defined.

(** In the sample gallery [url_to_next] leads from entry 2 to entry 1, and
    [url_to_prev] leads from entry 1 back to an entry with id 2. *)
Lemma prev_of_next_is_self_witness :
  ∃ m' : Document,
    m' !! "_id" = Some (VObjectId 2)
    ∧ url_to_prev (H:=sample_collaborators) sample_urlgen
        (on_document sample_gallery_entry (sample_entry 1 1 "one" "processed"))
      = link_via (H:=sample_collaborators) sample_urlgen m'
          (on_document sample_gallery_entry (sample_entry 1 1 "one" "processed")).
Proof.
  destruct (prev_of_next_is_self (H:=sample_collaborators) sample_urlgen
              sample_gallery_entry 2 1 (VObjectId 1)
              (sample_entry 2 1 "two" "processed")
              (sample_entry 1 1 "one" "processed"))
    as (m' & _ & _ & Hid & Hrun).
  - discriminate.
  - do 4 right; left.
  - by vm_compute.
  - vm_compute; reflexivity.
  - split; [do 2 right; left|]. split; [by vm_compute|]. split; [by vm_compute|lia].
  - intros d j (Hin & [Hu Hs] & Hid & Hlt).
    sample_member Hin ltac:(vm_compute in Hu, Hs, Hid; simplify_eq; lia).
  - exists m'. by split.
Defined.

(** ** More on MediaEntry.generate_slug *)

Section MoreSlugs.
Context `{!Collaborators}.

Lemma generate_slug_outcome (st st' : State) (u : unit) :
  generate_slug st = Ok (u, st') → ∃ s : string, st' = with_slug st s.
Proof.
  intros Hrun.
  destruct (self st !! "title") as [title|] eqn:Ht.
  - destruct title as [| |t| | | |];
      try (unfold generate_slug, mbind, M_bind, getitem in Hrun;
           rewrite Ht in Hrun; discriminate).
    rewrite (generate_slug_run st t Ht) in Hrun.
    destruct (bool_decide _); [|simplify_eq; eauto].
    destruct (self st !! "_id"); simplify_eq; eauto.
  - unfold generate_slug, mbind, M_bind, getitem in Hrun.
    rewrite Ht in Hrun. discriminate.
Qed.

Lemma with_slug_with_slug (st : State) (s0 s : string) :
  with_slug (with_slug st s0) s = with_slug st s.
Proof. unfold with_slug; simpl. by rewrite insert_insert_eq. Qed.

Lemma generate_slug_forgets (st : State) (s0 : string) :
  generate_slug (with_slug st s0) = generate_slug st.
Proof.
  assert (self (with_slug st s0) !! "title" = self st !! "title") as Ht
    by (unfold with_slug; simpl; by rewrite lookup_insert_ne).
  assert (self (with_slug st s0) !! "_id" = self st !! "_id") as Hid
    by (unfold with_slug; simpl; by rewrite lookup_insert_ne).
  destruct (self st !! "title") as [title|] eqn:E.
  - destruct title as [| |t| | | |];
      try (unfold generate_slug, mbind, M_bind, getitem; by rewrite Ht, E).
    rewrite (generate_slug_run st t E), (generate_slug_run (with_slug st s0) t Ht).
    rewrite Hid. change (database (with_slug st s0)) with (database st).
    destruct (bool_decide _); [destruct (self st !! "_id")|];
      by rewrite ?with_slug_with_slug.
  - unfold generate_slug, mbind, M_bind, getitem. by rewrite Ht, E.
Qed.

(** X8.  The slug that an entry had before plays no part in
    [generate_slug], and calling it a second time changes nothing: two
    calls in a row raise what one call raises, or end in the state that one
    call ends in. *)
Theorem generate_slug_idempotent (st : State) :
  (∀ s0 : string, generate_slug (with_slug st s0) = generate_slug st)
  ∧ (generate_slug ;; generate_slug) st = generate_slug st.
Proof.
  split; [intros s0; apply generate_slug_forgets|].
  unfold mbind, M_bind.
  destruct (generate_slug st) as [[[] st']|e] eqn:Hrun; [|done].
  destruct (generate_slug_outcome st st' () Hrun) as [s ->].
  by rewrite generate_slug_forgets.
Qed.

(** X9.  [generate_slug] checks for a duplicate once.  After a call that
    returns, the slug of the entry is a text, and it is already the slug of
    a stored entry exactly when [slugify(title)] was taken and the form with
    the id in front is taken as well: the rewritten slug is not checked
    again. *)
Theorem generate_slug_collides_iff (st st' : State) (t : string) :
  self st !! "title" = Some (VUnicode t) →
  generate_slug st = Ok (tt, st') →
  ∃ s' : string,
    self st' !! "slug" = Some (VUnicode s')
    ∧ (slug_taken st' s' ↔
         slug_taken st (slugify t)
         ∧ ∃ id : value, self st !! "_id" = Some id
             ∧ slug_taken st (unicode_of id +:+ "-" +:+ slugify t)).
Proof.
  intros Ht Hrun. rewrite (generate_slug_run st t Ht) in Hrun.
  destruct (bool_decide _) eqn:E.
  - apply bool_decide_eq_true_1 in E. rewrite <- slug_taken_find_one in E.
    destruct (self st !! "_id") as [id|] eqn:Hid; [|discriminate].
    injection Hrun as <-. eexists. split.
    + unfold with_slug; simpl. by rewrite lookup_insert_eq.
    + split.
      * intros Htaken. split; [done|]. exists id. by split.
      * intros (_ & id' & [= <-] & Htaken). done.
  - apply bool_decide_eq_false_1 in E. rewrite <- slug_taken_find_one in E.
    injection Hrun as <-. eexists. split.
    + unfold with_slug; simpl. by rewrite lookup_insert_eq.
    + split; [done|]. by intros [? _].
Qed.

(** X10.  [generate_slug] raises [KeyError] on an entry without a title.  On
    an entry whose title is a text it raises [KeyError] exactly when the
    slug of the title is taken and the entry has no [_id] to put in front
    (it was never saved and was given none); in every other case it
    returns. *)
Theorem generate_slug_raises_iff (st : State) :
  (self st !! "title" = None → generate_slug st = Raise KeyError)
  ∧ ∀ t : string, self st !! "title" = Some (VUnicode t) →
      (generate_slug st = Raise KeyError
       ↔ slug_taken st (slugify t) ∧ self st !! "_id" = None)
      ∧ (¬ (slug_taken st (slugify t) ∧ self st !! "_id" = None) →
         ∃ st' : State, generate_slug st = Ok (tt, st')).
Proof.
  split.
  - intros Ht. unfold generate_slug, mbind, M_bind, getitem. by rewrite Ht.
  - intros t Ht. rewrite (generate_slug_run st t Ht).
    destruct (bool_decide _) eqn:E.
    + apply bool_decide_eq_true_1 in E. rewrite <- slug_taken_find_one in E.
      destruct (self st !! "_id") as [id|].
      * split; [|eauto]. split; [done|]. by intros [_ ?].
      * split; [done|]. intros Hno. by destruct Hno.
    + apply bool_decide_eq_false_1 in E. rewrite <- slug_taken_find_one in E.
      split; [|eauto]. split; [done|]. by intros [? _].
Qed.

End MoreSlugs.

(** The fresh sample entry gets a slug that no stored entry has. *)
Lemma generate_slug_collides_iff_witness :
  ∃ s' : string,
    self (with_slug sample_fresh "sunset") !! "slug" = Some (VUnicode s')
    ∧ (slug_taken (with_slug sample_fresh "sunset") s' ↔
         slug_taken sample_fresh (slugify (Collaborators:=sample_collaborators) "Sunset")
         ∧ ∃ id : value, self sample_fresh !! "_id" = Some id
             ∧ slug_taken sample_fresh
                 (unicode_of (H:=sample_collaborators) id +:+ "-"
                  +:+ slugify (Collaborators:=sample_collaborators) "Sunset")).
Proof.
  apply (generate_slug_collides_iff (H:=sample_collaborators) sample_fresh
           (with_slug sample_fresh "sunset") "Sunset");
    vm_compute; reflexivity.
Defined.

(** The unsaved sample entry has no id and its slug is taken: the call
    raises [KeyError]. *)
Lemma generate_slug_raises_iff_witness :
  generate_slug (H:=sample_collaborators) sample_unsaved = Raise KeyError.
Proof.
  apply (proj2 (generate_slug_raises_iff (H:=sample_collaborators) sample_unsaved)
           "Hello World!"); [vm_compute; reflexivity|].
  split; [|vm_compute; reflexivity].
  exists sample_saved_entry. split; [right; left|]. vm_compute; reflexivity.
Defined.

(** ** More on MediaEntry.get_comments *)

Lemma get_comments_run (st : State) (id : value) :
  self st !! "_id" = Some id → id ≠ VNone →
  get_comments st =
    Ok ({| cur_docs :=
             merge_sort (doc_order "created" DESCENDING)
               (filter (λ d : Document, d !! "media_entry" = Some id)
                       (media_comments (database st)));
           cur_limit := None |}, st).
Proof.
  intros Hid Hv.
  unfold get_comments, mbind, M_bind, collection_of, getitem. rewrite Hid; simpl.
  unfold mret, M_ret, cursor_sort; simpl. by rewrite <- find_by_field.
Qed.

(** X11.  When no two comments on the entry were created at the same time,
    the list that [get_comments] returns does not depend on the order in
    which the store keeps the comments: two stores that hold the same
    comments give the same list. *)
Theorem get_comments_storage_order (st1 st2 : State) (id : value) :
  self st1 !! "_id" = Some id → self st2 !! "_id" = Some id → id ≠ VNone →
  media_comments (database st1) ≡ₚ media_comments (database st2) →
  (∀ c : Document, c ∈ media_comments (database st1) →
     c !! "media_entry" = Some id → ∃ t : Z, c !! "created" = Some (VDatetime t)) →
  (∀ c1 c2 : Document,
     c1 ∈ media_comments (database st1) → c2 ∈ media_comments (database st1) →
     c1 !! "media_entry" = Some id → c2 !! "media_entry" = Some id →
     c1 !! "created" = c2 !! "created" → c1 = c2) →
  ∃ cur1 cur2 : Cursor,
    get_comments st1 = Ok (cur1, st1) ∧ get_comments st2 = Ok (cur2, st2)
    ∧ cursor_list cur1 = cursor_list cur2.
Proof.
  intros Hid1 Hid2 Hv Hperm Htimes Hdistinct.
  do 2 eexists. split; [by apply get_comments_run|].
  split; [by apply get_comments_run|].
  unfold cursor_list; simpl.
  set (P := λ d : Document, d !! "media_entry" = Some id).
  set (R := doc_order "created" DESCENDING).
  assert (∀ c, c ∈ merge_sort R (filter P (media_comments (database st1))) →
            c ∈ media_comments (database st1) ∧ c !! "media_entry" = Some id) as Hin.
  { intros c. rewrite merge_sort_Permutation, list_elem_of_filter. tauto. }
  assert (merge_sort R (filter P (media_comments (database st1)))
          ≡ₚ merge_sort R (filter P (media_comments (database st2)))) as Hsame.
  { rewrite !merge_sort_Permutation. by rewrite Hperm. }
  apply (StronglySorted_unique_strong R);
    [|unfold R; apply StronglySorted_merge_sort; apply _..|done].
  intros c1 c2 Hc1 Hc2 H12 H21. rewrite <- Hsame in Hc2.
  apply Hin in Hc1 as [Hc1 Hm1]. apply Hin in Hc2 as [Hc2 Hm2].
  apply Hdistinct; [done..|].
  destruct (Htimes c1 Hc1 Hm1) as [t1 Ht1], (Htimes c2 Hc2 Hm2) as [t2 Ht2].
  unfold R in H12, H21; simpl in H12, H21. rewrite Ht1, Ht2 in *.
  apply Is_true_true, bson_leb_datetime in H12.
  apply Is_true_true, bson_leb_datetime in H21.
  do 2 f_equal. lia.
Qed.

(** The sample comments on entry 5, stored in two different orders, are
    listed alike. *)
Lemma get_comments_storage_order_witness :
  ∃ cur1 cur2 : Cursor,
    get_comments sample_commented_entry = Ok (cur1, sample_commented_entry)
    ∧ get_comments sample_comments_reordered = Ok (cur2, sample_comments_reordered)
    ∧ cursor_list cur1 = cursor_list cur2.
Proof.
  apply (get_comments_storage_order sample_commented_entry sample_comments_reordered
           (VObjectId 5)).
  - vm_compute; reflexivity.
  - vm_compute; reflexivity.
  - discriminate.
  - simpl.
    change ([sample_comment 5 1 20 "second"; sample_comment 6 1 15 "elsewhere";
             sample_comment 5 2 30 "third"; sample_comment 5 1 10 "first"]
            ≡ₚ [sample_comment 5 1 10 "first"; sample_comment 5 2 30 "third";
                sample_comment 6 1 15 "elsewhere"; sample_comment 5 1 20 "second"]).
    apply (Permutation_trans (l' := sample_comment 5 1 10 "first"
             :: [sample_comment 5 1 20 "second"; sample_comment 6 1 15 "elsewhere";
                 sample_comment 5 2 30 "third"])).
    { symmetry.
      apply (Permutation_cons_append
               [sample_comment 5 1 20 "second"; sample_comment 6 1 15 "elsewhere";
                sample_comment 5 2 30 "third"]). }
    constructor.
    apply (Permutation_trans (l' := sample_comment 5 2 30 "third"
             :: [sample_comment 5 1 20 "second"; sample_comment 6 1 15 "elsewhere"])).
    { symmetry.
      apply (Permutation_cons_append
               [sample_comment 5 1 20 "second"; sample_comment 6 1 15 "elsewhere"]). }
    constructor. apply perm_swap.
  - intros c Hc Hm.
    sample_member Hc ltac:(first [eexists; vm_compute; reflexivity
                                 | vm_compute in Hm; discriminate]).
  - intros c1 c2 Hc1 Hc2 Hm1 Hm2 Ht.
    sample_member Hc1 ltac:(
      sample_member Hc2 ltac:(first [reflexivity
                                    | vm_compute in Ht; discriminate
                                    | vm_compute in Hm1; discriminate
                                    | vm_compute in Hm2; discriminate])).
Defined.

(** X12.  Every comment that [get_comments] lists for a stored entry points
    back at it: [media_entry()], called on such a comment, returns a stored
    entry with the id of the entry whose comments were asked for. *)
Theorem listed_comment_points_back (st : State) (i : N) (cur : Cursor) (c : Document) :
  self st !! "_id" = Some (VObjectId i) →
  (∃ e : Document, e ∈ media_entries (database st) ∧ e !! "_id" = Some (VObjectId i)) →
  get_comments st = Ok (cur, st) →
  c ∈ cursor_list cur →
  ∃ d : Document,
    media_entry (on_document st c) = Ok (Some d, on_document st c)
    ∧ d ∈ media_entries (database st)
    ∧ d !! "_id" = Some (VObjectId i).
Proof.
  intros Hid (e & He & Heid) Hrun Hc.
  rewrite (get_comments_run st (VObjectId i) Hid) in Hrun by done.
  injection Hrun as <-. unfold cursor_list in Hc; simpl in Hc.
  rewrite merge_sort_Permutation, list_elem_of_filter in Hc. destruct Hc as [Hm _].
  unfold media_entry, mbind, M_bind, collection_of, getitem, on_document; simpl.
  rewrite Hm; simpl.
  pose proof (find_one_by_id (media_entries (database st)) i) as H.
  destruct (find_one (media_entries (database st)) [("_id", QEq (VObjectId i))])
    as [d|].
  - exists d. by destruct H.
  - by destruct (H e He).
Qed.

(** The comment "third" is listed for sample entry 2 and points back at an
    entry with id 2. *)
Lemma listed_comment_points_back_witness :
  ∃ d : Document,
    media_entry (on_document sample_discussion (sample_comment 2 2 30 "third"))
      = Ok (Some d, on_document sample_discussion (sample_comment 2 2 30 "third"))
    ∧ d ∈ media_entries (database sample_discussion)
    ∧ d !! "_id" = Some (VObjectId 2).
Proof.
  apply (listed_comment_points_back sample_discussion 2
           {| cur_docs := [sample_comment 2 2 30 "third"; sample_comment 2 1 10 "first"];
              cur_limit := None |}).
  - vm_compute; reflexivity.
  - exists (sample_entry 2 1 "two" "processed"). split; [do 4 right; left|].
    vm_compute; reflexivity.
  - vm_compute; reflexivity.
  - left.
Defined.

(** ** The declared tables *)

Lemma default_declared (sch : Schema) (k : string) (p : provider) :
  default_values sch !! k = Some p → (k, p) ∈ map_to_list (default_values sch).
Proof. intros Hkp. by apply elem_of_map_to_list. Qed.

(** X13.  In each of the three registered models the tables fit together:
    every required field is a field of the structure, and every field with
    a default is a field of the structure whose declared type is the type
    of what the default provides, at any moment of creation. *)
Theorem declared_tables_fit (sch : Schema) :
  sch ∈ REGISTER_MODELS →
  (∀ k : string, k ∈ required_fields sch → is_Some (structure sch !! k))
  ∧ ∀ (k : string) (p : provider), default_values sch !! k = Some p →
      ∃ t : pytype, structure sch !! k = Some t
        ∧ ∀ env : Moment, has_type t (provide env p) = true.
Proof.
  intros Hsch. unfold REGISTER_MODELS in Hsch.
  repeat (apply elem_of_cons in Hsch as [->|Hsch]);
    try (by apply not_elem_of_nil in Hsch).
  - split.
    + intros k Hk. simpl in Hk.
      sample_member Hk ltac:(vm_compute; eauto).
    + intros k p Hkp. apply default_declared in Hkp. vm_compute in Hkp.
      repeat (apply elem_of_cons in Hkp as [[= -> ->]|Hkp];
              [eexists; split; [vm_compute; reflexivity|done]|]).
      by apply not_elem_of_nil in Hkp.
  - split.
    + intros k Hk. simpl in Hk.
      sample_member Hk ltac:(vm_compute; eauto).
    + intros k p Hkp. apply default_declared in Hkp. vm_compute in Hkp.
      repeat (apply elem_of_cons in Hkp as [[= -> ->]|Hkp];
              [eexists; split; [vm_compute; reflexivity|done]|]).
      by apply not_elem_of_nil in Hkp.
  - split.
    + intros k Hk. simpl in Hk.
      sample_member Hk ltac:(vm_compute; eauto).
    + intros k p Hkp. apply default_declared in Hkp. vm_compute in Hkp.
      repeat (apply elem_of_cons in Hkp as [[= -> ->]|Hkp];
              [eexists; split; [vm_compute; reflexivity|done]|]).
      by apply not_elem_of_nil in Hkp.
Qed.

(** In [User], the default of [verification_key] is declared as text and
    provides the text of the token. *)
Lemma declared_tables_fit_witness :
  ∃ t : pytype,
    structure User !! "verification_key" = Some t
    ∧ ∀ env : Moment, has_type t (provide env Uuid4) = true.
Proof.
  apply (proj2 (declared_tables_fit User ltac:(right; left)) "verification_key" Uuid4).
  vm_compute; reflexivity.
Defined.
